(** * AI image generation backend: credit ledger, request orchestration, weekly reports

    A shallow embedding of the Python sources under [functions/]
    ([validators/request_validator.py], [models/*.py],
    [services/credit_service.py], [services/generation_service.py],
    [services/report_service.py] and [main.py]) together with the
    properties that the design document states about them.

    Layout: the embedding comes first (one module per source file), then
    the vocabulary in which the properties are stated together with
    sample data, then the lemmas and theorems. *)

From Stdlib Require Import ZArith List String Ascii Bool Lia.
From Stdlib Require Import SpecFloat.
From stdpp Require Import base option list gmap strings pretty.

Open Scope Z_scope.

(* ===================================================================== *)
(** * Part I: the embedding                                               *)
(* ===================================================================== *)

(** ** Python: exceptions, strings, numbers *)

Module Py.

(** The exception classes that the modelled code can meet.  [StoreError]
    stands for whatever the Firestore client raises when a remote call
    fails or a transaction cannot be carried through; [Exception msg] is
    a plain [Exception(msg)]. *)
Inductive exn :=
| AttributeError
| TypeError
| KeyError
| ZeroDivisionError
| OverflowError
| StoreError
| Exception (msg : string).

(** [str(e)]. *)
Definition str (e : exn) : string :=
  match e with
  | AttributeError => "AttributeError"
  | TypeError => "TypeError"
  | KeyError => "KeyError"
  | ZeroDivisionError => "division by zero"
  | OverflowError => "integer division result too large for a float"
  | StoreError => "StoreError"
  | Exception msg => msg
  end.

(** The outcome of evaluating a Python expression: a value or a raised
    exception. *)
Inductive Res (A : Type) :=
| Ok (a : A)
| Raise (e : exn).
Arguments Ok {A} a.
Arguments Raise {A} e.

Definition bind {A B} (m : Res A) (k : A -> Res B) : Res B :=
  match m with
  | Ok a => k a
  | Raise e => Raise e
  end.

(** *** Strings

    A [str] is modelled by [string]; a character is a code point below
    256.  [isspace] is [str.isspace] on that range. *)
Definition isspace (c : ascii) : bool :=
  let n := nat_of_ascii c in
  ((9 <=? n) && (n <=? 13) || (28 <=? n) && (n <=? 32)
   || (n =? 133) || (n =? 160))%nat.

Fixpoint lstrip (s : string) : string :=
  match s with
  | EmptyString => EmptyString
  | String c s' => if isspace c then lstrip s' else s
  end.

Fixpoint rstrip (s : string) : string :=
  match s with
  | EmptyString => EmptyString
  | String c s' =>
      match rstrip s' with
      | EmptyString => if isspace c then EmptyString else String c EmptyString
      | r => String c r
      end
  end.

(** [s.strip()] *)
Definition strip (s : string) : string := rstrip (lstrip s).

(** [len(s)] *)
Definition len (s : string) : Z := Z.of_nat (String.length s).

(** Truth value of a string: [not s] holds of the empty string only. *)
Definition is_empty (s : string) : bool :=
  match s with
  | EmptyString => true
  | _ => false
  end.

Definition upper (c : ascii) : ascii :=
  let n := nat_of_ascii c in
  if ((97 <=? n) && (n <=? 122))%nat then ascii_of_nat (n - 32) else c.

Definition lower (c : ascii) : ascii :=
  let n := nat_of_ascii c in
  if ((65 <=? n) && (n <=? 90))%nat then ascii_of_nat (n + 32) else c.

Fixpoint map_chars (f : ascii -> ascii) (s : string) : string :=
  match s with
  | EmptyString => EmptyString
  | String c s' => String (f c) (map_chars f s')
  end.

(** [s.capitalize()] on ASCII letters. *)
Definition capitalize (s : string) : string :=
  match s with
  | EmptyString => EmptyString
  | String c s' => String (upper c) (map_chars lower s')
  end.

(** [sep.join(l)] *)
Fixpoint join (sep : string) (l : list string) : string :=
  match l with
  | [] => EmptyString
  | [x] => x
  | x :: rest => x +:+ sep +:+ join sep rest
  end.

(** [c * n] for a one-character string [c]. *)
Fixpoint repeat_char (c : ascii) (n : nat) : string :=
  match n with
  | O => EmptyString
  | S n' => String c (repeat_char c n')
  end.

(** *** Numbers

    An [int] is a [Z].  A [float] is an IEEE 754 binary64 value, taken
    from the standard library's specification of floating-point
    arithmetic ([prec = 53], [emax = 1024], round to nearest even). *)
Definition prec : Z := 53.
Definition emax : Z := 1024.
Definition float := spec_float.

(** [float(z)] for an [int] literal or operand. *)
Definition float_of_int (z : Z) : float := binary_normalize prec emax z 0 false.

(** The integer [z] as an unrounded operand of a correctly rounded
    operation. *)
Definition exact (z : Z) : float :=
  match z with
  | Z0 => S754_zero false
  | Zpos p => S754_finite false p 0
  | Zneg p => S754_finite true p 0
  end.

(** [a / b] on two [int]s: the correctly rounded quotient. *)
Definition truediv (a b : Z) : Res float :=
  match b with
  | Z0 => Raise ZeroDivisionError
  | _ =>
      match a with
      | Z0 => Ok (S754_zero (b <? 0))
      | _ =>
          match SFdiv prec emax (exact a) (exact b) with
          | S754_infinity _ => Raise OverflowError
          | q => Ok q
          end
      end
  end.

(** [x * n] for a float [x] and an [int] [n]. *)
Definition mul_int (x : float) (n : Z) : float := SFmul prec emax x (float_of_int n).

(** [x > n] for a float [x] and a small [int] [n]. *)
Definition gt_int (x : float) (n : Z) : bool := SFltb (float_of_int n) x.

(** [a < b] for an [int] [a] and a [b] that is an [int] or [None]:
    comparing with [None] is a [TypeError]. *)
Definition lt_opt (a : Z) (b : option Z) : Res bool :=
  match b with
  | Some b => Ok (a <? b)
  | None => Raise TypeError
  end.

(** [abs(x)] *)
Definition fabs (x : float) : float := SFabs x.

(** The integer nearest to [n / d] ([0 < d]), ties to the even one. *)
Definition round_half_even (n d : Z) : Z :=
  let q := n / d in
  match 2 * (n mod d) ?= d with
  | Lt => q
  | Gt => q + 1
  | Eq => if Z.even q then q else q + 1
  end.

(** [round(x, 2)] on a float: the decimal with two fractional digits
    nearest to the exact value of [x] (ties to even), read back as the
    nearest float. *)
Definition round2 (x : float) : float :=
  match x with
  | S754_finite s m e =>
      let k := if 0 <=? e then Zpos m * 2 ^ e * 100
               else round_half_even (Zpos m * 100) (2 ^ (- e)) in
      match k with
      | Zpos p => SFdiv prec emax (S754_finite s p 0) (exact 100)
      | _ => S754_zero s
      end
  | _ => x
  end.

(** [format(x, ".1f")]: the decimal with one fractional digit nearest
    to the exact value of [x] (ties to even). *)
Definition sign_str (s : bool) : string := if s then "-" else "".

Definition format_1f (x : float) : string :=
  match x with
  | S754_zero s => sign_str s +:+ "0.0"
  | S754_infinity s => sign_str s +:+ "inf"
  | S754_nan => "nan"
  | S754_finite s m e =>
      let k := if 0 <=? e then Zpos m * 2 ^ e * 10
               else round_half_even (Zpos m * 10) (2 ^ (- e)) in
      sign_str s +:+ pretty (k / 10) +:+ "." +:+ pretty (k mod 10)
  end.

(** A number that is either an [int] or a [float]. *)
Inductive number :=
| Int (z : Z)
| Float (x : float).

(** [round(v, 2)]: an [int] rounds to itself. *)
Definition round_number2 (v : number) : number :=
  match v with
  | Int z => Int z
  | Float x => Float (round2 x)
  end.

(** *** JSON values, as [request.get_json()] hands them over.  The
    contents of floats, arrays and objects are never inspected by the
    modelled code. *)
Inductive JVal :=
| JNull
| JBool (b : bool)
| JInt (z : Z)
| JFloat
| JStr (s : string)
| JArr
| JObj.

#[global] Instance JVal_eq_dec : EqDecision JVal.
Proof. solve_decision. Defined.

(** [v.strip()]: only a [str] has the method. *)
Definition strip_val (v : JVal) : Res string :=
  match v with
  | JStr s => Ok (strip s)
  | _ => Raise AttributeError
  end.

(** [isinstance(v, str)] *)
Definition is_str (v : JVal) : bool :=
  match v with
  | JStr _ => true
  | _ => false
  end.

(** [v in l] for a list [l] of string constants. *)
Definition in_strings (v : JVal) (l : list string) : bool :=
  match v with
  | JStr s => bool_decide (s ∈ l)
  | _ => false
  end.

(** [needle in s] for two strings: [needle] occurs in [s]. *)
Fixpoint contains (needle s : string) : bool :=
  String.prefix needle s
  || match s with
     | EmptyString => false
     | String _ rest => contains needle rest
     end.

(** *** The body of a request, as [request.get_json()] returns it: any
    JSON value, [null] being [None].  Of a float only its truth value
    matters to the modelled code. *)
Inductive Json :=
| Null
| Boolean (b : bool)
| Integer (z : Z)
| Real (nonzero : bool)
| Text (s : string)
| Array (items : list JVal)
| Object (fields : gmap string JVal).

(** [bool(data)] *)
Definition truth (data : Json) : bool :=
  match data with
  | Null => false
  | Boolean b => b
  | Integer z => negb (z =? 0)
  | Real nonzero => nonzero
  | Text s => negb (is_empty s)
  | Array items => match items with [] => false | _ => true end
  | Object fields => negb (bool_decide (fields = ∅))
  end.

(** [key in l] for a list [l] of JSON values: some element equals the
    string [key]. *)
Definition among (key : string) (items : list JVal) : bool :=
  existsb (fun v => match v with
                    | JStr s => String.eqb s key
                    | _ => false
                    end) items.

End Py.

Notation "'let?' x ':=' m 'in' k" := (Py.bind m (fun x => k))
  (at level 10, x name, m at level 100, k at level 200).

(** ** validators/request_validator.py *)

Module RequestValidator.
Import Py.

Definition VALID_MODELS : list string := ["Model A"; "Model B"].
Definition VALID_STYLES : list string :=
  ["realistic"; "anime"; "oil painting"; "sketch"; "cyberpunk"; "watercolor"].
Definition VALID_COLORS : list string :=
  ["vibrant"; "monochrome"; "pastel"; "neon"; "vintage"].
Definition VALID_SIZES : list string := ["512x512"; "1024x1024"; "1024x1792"].

Definition CREDIT_COSTS : gmap string Z :=
  list_to_map [("512x512", 1); ("1024x1024", 3); ("1024x1792", 4)].

(** The returned dictionary: [{"valid": True}] or
    [{"valid": False, "error": error}]. *)
Inductive Verdict :=
| Valid
| Invalid (error : string).

Definition valid (v : Verdict) : bool :=
  match v with
  | Valid => true
  | Invalid _ => false
  end.

Definition required_fields : list string :=
  ["userId"; "model"; "style"; "color"; "size"; "prompt"].

(** The loop over [required_fields]; [Some v] is an early [return v]. *)
Fixpoint check_required (data : gmap string JVal) (fields : list string)
  : option Verdict :=
  match fields with
  | [] => None
  | field :: rest =>
      match data !! field with
      | None => Some (Invalid ("Missing required field: " +:+ field))
      | Some v =>
          match v with
          | JStr s =>
              if bool_decide (field ∈ ["userId"; "prompt"]) && is_empty (strip s)
              then
                let field_name :=
                  if bool_decide (field = "userId") then "userId"
                  else capitalize field in
                Some (Invalid (field_name +:+ " cannot be empty"))
              else check_required data rest
          | _ => check_required data rest
          end
      end
  end.

Definition validate_generation_request (data : gmap string JVal) : Res Verdict :=
  match check_required data required_fields with
  | Some v => Ok v
  | None =>
      let? user_id := strip_val (default (JStr "") (data !! "userId")) in
      if is_empty user_id then Ok (Invalid "userId cannot be empty") else
      let model := default JNull (data !! "model") in
      if negb (in_strings model VALID_MODELS) then
        Ok (Invalid ("Invalid model. Must be one of: " +:+ join ", " VALID_MODELS))
      else
      let style := default JNull (data !! "style") in
      if negb (in_strings style VALID_STYLES) then
        Ok (Invalid ("Invalid style. Must be one of: " +:+ join ", " VALID_STYLES))
      else
      let color := default JNull (data !! "color") in
      if negb (in_strings color VALID_COLORS) then
        Ok (Invalid ("Invalid color. Must be one of: " +:+ join ", " VALID_COLORS))
      else
      let size := default JNull (data !! "size") in
      if negb (in_strings size VALID_SIZES) then
        Ok (Invalid ("Invalid size. Must be one of: " +:+ join ", " VALID_SIZES))
      else
      let? prompt := strip_val (default (JStr "") (data !! "prompt")) in
      if is_empty prompt then Ok (Invalid "Prompt cannot be empty") else
      if 1000 <? len prompt then
        Ok (Invalid "Prompt must be less than 1000 characters")
      else Ok Valid
  end.

(** The function on whatever the handler passes.  Only an object is the
    dictionary that the signature announces.  On another body the loop
    stops at its first field: [field not in data] looks for ["userId"]
    among the elements of a list or as a substring of a string, and is a
    [TypeError] on [None], a boolean or a number; where it finds it,
    [data[field]] is a [TypeError] (a list or a string is not indexed by
    a string). *)
Definition validate_body (data : Json) : Res Verdict :=
  match data with
  | Object fields => validate_generation_request fields
  | Array items =>
      if among "userId" items then Raise TypeError
      else Ok (Invalid ("Missing required field: " +:+ "userId"))
  | Text s =>
      if contains "userId" s then Raise TypeError
      else Ok (Invalid ("Missing required field: " +:+ "userId"))
  | _ => Raise TypeError
  end.

Definition get_credit_cost (size : string) : option Z := CREDIT_COSTS !! size.

(** A character of the class [[a-zA-Z0-9_-]]. *)
Definition id_char (c : ascii) : bool :=
  let n := nat_of_ascii c in
  ((97 <=? n) && (n <=? 122) || (65 <=? n) && (n <=? 90)
   || (48 <=? n) && (n <=? 57) || (n =? 95) || (n =? 45))%nat.

(** [re.match(r"^[a-zA-Z0-9_-]+$", s)]: one or more characters of the
    class, up to the end of the string or to a newline that ends it
    (which [$] also accepts). *)
Fixpoint match_id (s : string) : bool :=
  match s with
  | EmptyString => false
  | String c rest =>
      id_char c
      && match rest with
         | EmptyString => true
         | String "010"%char EmptyString => true
         | _ => match_id rest
         end
  end.

(** The argument is whatever the caller passes: anything but a non-empty
    string is refused by the first test. *)
Definition validate_user_id (user_id : JVal) : bool :=
  match user_id with
  | JStr s =>
      if is_empty s then false
      else
        let user_id := strip s in
        if (len user_id <? 1) || (128 <? len user_id) then false
        else if negb (match_id user_id) then false
             else true
  | _ => false
  end.

End RequestValidator.

(** ** models/user.py, models/transaction.py, models/request.py

    A Firestore document is a dictionary; each collection's documents are
    modelled by a record with one field per key.  A key that the code
    reads through [dict.get(key, default)] is an [option]: [None] is an
    absent key.  Instants ([datetime] values in UTC) are microseconds
    since the epoch. *)

Module UserDoc.
Record t := {
  userId : string;
  credits : option Z;
  email : option string;
  createdAt : Z;
  updatedAt : Z
}.
End UserDoc.

Module TransactionDoc.
Record t := {
  userId : string;
  type : option string;
  credits : option Z;
  reason : string;
  timestamp : Z;
  transactionId : option string;
  generationRequestId : option string
}.
End TransactionDoc.

Module RequestDoc.
Record t := {
  userId : string;
  model : option string;
  style : option string;
  color : option string;
  size : option string;
  prompt : string;
  status : option string;
  creditsCharged : option Z;
  createdAt : Z;
  requestId : option string;
  imageUrl : option string;
  error : option string;
  completedAt : option Z
}.
End RequestDoc.

Module Transaction.
Import Py.

Inductive TransactionType :=
| DEDUCTION
| REFUND
| CREDIT.

#[global] Instance TransactionType_eq_dec : EqDecision TransactionType.
Proof. solve_decision. Defined.

(** The enumeration is a [str] subclass; this is the string it is. *)
Definition value (ty : TransactionType) : string :=
  match ty with
  | DEDUCTION => "deduction"
  | REFUND => "refund"
  | CREDIT => "credit"
  end.

(** A [CreditTransaction] object.  [timestamp] is the constructor's
    [timestamp or datetime.now(timezone.utc)], resolved by the caller. *)
Record CreditTransaction := {
  user_id : string;
  type : TransactionType;
  credits : Z;
  reason : string;
  transaction_id : option string;
  generation_request_id : option string;
  timestamp : Z
}.

(** [if x:] on an optional string: [None] and [""] are false. *)
Definition truthy (x : option string) : option string :=
  match x with
  | Some s => if is_empty s then None else Some s
  | None => None
  end.

Definition to_dict (self : CreditTransaction) : TransactionDoc.t :=
  {| TransactionDoc.userId := user_id self;
     TransactionDoc.type := Some (value (type self));
     TransactionDoc.credits := Some (credits self);
     TransactionDoc.reason := reason self;
     TransactionDoc.timestamp := timestamp self;
     TransactionDoc.transactionId := truthy (transaction_id self);
     TransactionDoc.generationRequestId := truthy (generation_request_id self) |}.

Definition set_transaction_id (self : CreditTransaction) (i : string) :=
  {| user_id := user_id self; type := type self; credits := credits self;
     reason := reason self; transaction_id := Some i;
     generation_request_id := generation_request_id self;
     timestamp := timestamp self |}.
End Transaction.

Module Request.
Import Py.

Inductive RequestStatus :=
| PENDING
| COMPLETED
| FAILED.

Definition value (st : RequestStatus) : string :=
  match st with
  | PENDING => "pending"
  | COMPLETED => "completed"
  | FAILED => "failed"
  end.

(** A [GenerationRequest] object as [main.py] builds it: status, image
    URL, error and completion time keep their defaults. *)
Record GenerationRequest := {
  request_id : option string;
  user_id : string;
  model : string;
  style : string;
  color : string;
  size : string;
  prompt : string;
  status : RequestStatus;
  image_url : option string;
  error : option string;
  credits_charged : Z;
  created_at : Z;
  completed_at : option Z
}.

Definition to_dict (self : GenerationRequest) : RequestDoc.t :=
  {| RequestDoc.userId := user_id self;
     RequestDoc.model := Some (model self);
     RequestDoc.style := Some (style self);
     RequestDoc.color := Some (color self);
     RequestDoc.size := Some (size self);
     RequestDoc.prompt := prompt self;
     RequestDoc.status := Some (value (status self));
     RequestDoc.creditsCharged := Some (credits_charged self);
     RequestDoc.createdAt := created_at self;
     RequestDoc.requestId := Transaction.truthy (request_id self);
     RequestDoc.imageUrl := Transaction.truthy (image_url self);
     RequestDoc.error := Transaction.truthy (error self);
     RequestDoc.completedAt := completed_at self |}.
End Request.

(** The documents of [weekly_reports].  An anomaly is one of three
    dictionaries, told apart by their ["type"] entry.  [weekStartDate] and
    [weekEndDate] hold the instant whose ISO 8601 text the document
    stores (the rendering is injective on UTC instants). *)
Module ReportDoc.
Inductive Anomaly :=
| request_volume_spike (description severity : string)
                       (currentValue previousValue : Z)
| high_failure_rate (description severity : string) (failureRate : Py.float)
| model_imbalance (description severity model : string)
                  (percentage : Py.float).

Record t := {
  weekStartDate : Z;
  weekEndDate : Z;
  totalRequests : option Z;
  successfulRequests : Z;
  failedRequests : Z;
  successRate : Py.number;
  totalCreditsConsumed : Z;
  totalCreditsRefunded : Z;
  netCreditsUsed : Z;
  requestsByModel : list (string * Z);
  requestsBySize : list (string * Z);
  requestsByStyle : list (string * Z);
  requestsByColor : list (string * Z);
  creditsBySize : list (string * Z);
  anomalies : list Anomaly;
  createdAt : Z
}.
End ReportDoc.

(** ** The Firestore client

    The store holds four collections.  [users] is keyed by user id.
    [generation_requests] keeps its documents with their ids, in the order
    in which queries stream them.  [credit_transactions] and
    [weekly_reports] are only ever written through a freshly generated
    document reference, which never names an existing document, so a
    write to them adds a document.

    Everything the code cannot determine is read from a [World]: the clock,
    the generated document ids, the outcome of each remote call, and the
    random draws of the generation service. *)
Module Firestore.
Import Py.

Record World := {
  clock : nat -> Z;          (* the n-th reading of [datetime.now] *)
  auto_id : nat -> string;   (* the n-th generated document id *)
  fault : nat -> bool;       (* does the n-th remote call fail? *)
  aborted : nat -> bool;     (* if it fails: with [Aborted] (contention)? *)
  roll : Py.float;           (* [random.random()] *)
  pick : nat;                (* the index drawn by [random.choice] *)
  millis : Z                 (* [int(time.time() * 1000)] *)
}.

Record Db := {
  users : gmap string UserDoc.t;
  credit_transactions : list TransactionDoc.t;
  generation_requests : list (string * RequestDoc.t);
  weekly_reports : list ReportDoc.t
}.

Definition empty : Db :=
  {| users := ∅; credit_transactions := []; generation_requests := [];
     weekly_reports := [] |}.

(** The state of one run: the store and how much of the world has been
    consumed. *)
Record Sys := {
  db : Db;
  clock_reads : nat;
  ids_drawn : nat;
  calls : nat
}.

Definition boot (d : Db) : Sys :=
  {| db := d; clock_reads := 0; ids_drawn := 0; calls := 0 |}.

(** A computation over a state [S] that returns or raises.  The state
    survives a raised exception, as Python's does. *)
Definition M (S A : Type) : Type := S -> Res A * S.

Definition ret {S A} (a : A) : M S A := fun s => (Ok a, s).
Definition raise {S A} (e : exn) : M S A := fun s => (Raise e, s).
Definition bind {S A B} (m : M S A) (k : A -> M S B) : M S B :=
  fun s => match m s with
           | (Ok a, s') => k a s'
           | (Raise e, s') => (Raise e, s')
           end.
(** [try: m  except Exception as e: h e] *)
Definition catch {S A} (m : M S A) (h : exn -> M S A) : M S A :=
  fun s => match m s with
           | (Ok a, s') => (Ok a, s')
           | (Raise e, s') => h e s'
           end.
Definition of_res {S A} (r : Res A) : M S A := fun s => (r, s).

(** *** Document-level helpers *)

Definition set_user_credits (doc : UserDoc.t) (c : Z) (now : Z) : UserDoc.t :=
  {| UserDoc.userId := UserDoc.userId doc;
     UserDoc.credits := Some c;
     UserDoc.email := UserDoc.email doc;
     UserDoc.createdAt := UserDoc.createdAt doc;
     UserDoc.updatedAt := now |}.

Fixpoint lookup_doc {A} (i : string) (l : list (string * A)) : option A :=
  match l with
  | [] => None
  | (j, d) :: rest => if String.eqb i j then Some d else lookup_doc i rest
  end.

(** [ref.set(d)]: replaces the document named [i], or adds it. *)
Fixpoint set_doc {A} (i : string) (d : A) (l : list (string * A))
  : list (string * A) :=
  match l with
  | [] => [(i, d)]
  | (j, d') :: rest =>
      if String.eqb i j then (i, d) :: rest else (j, d') :: set_doc i d rest
  end.

(** The field sets that the code passes to [update]. *)
Inductive RequestUpdate :=
| completed (imageUrl : string) (completedAt : Z)
| failed (error : string) (completedAt : Z).

Definition apply_request_update (u : RequestUpdate) (d : RequestDoc.t)
  : RequestDoc.t :=
  match u with
  | completed url t =>
      {| RequestDoc.userId := RequestDoc.userId d;
         RequestDoc.model := RequestDoc.model d;
         RequestDoc.style := RequestDoc.style d;
         RequestDoc.color := RequestDoc.color d;
         RequestDoc.size := RequestDoc.size d;
         RequestDoc.prompt := RequestDoc.prompt d;
         RequestDoc.status := Some "completed";
         RequestDoc.creditsCharged := RequestDoc.creditsCharged d;
         RequestDoc.createdAt := RequestDoc.createdAt d;
         RequestDoc.requestId := RequestDoc.requestId d;
         RequestDoc.imageUrl := Some url;
         RequestDoc.error := RequestDoc.error d;
         RequestDoc.completedAt := Some t |}
  | failed err t =>
      {| RequestDoc.userId := RequestDoc.userId d;
         RequestDoc.model := RequestDoc.model d;
         RequestDoc.style := RequestDoc.style d;
         RequestDoc.color := RequestDoc.color d;
         RequestDoc.size := RequestDoc.size d;
         RequestDoc.prompt := RequestDoc.prompt d;
         RequestDoc.status := Some "failed";
         RequestDoc.creditsCharged := RequestDoc.creditsCharged d;
         RequestDoc.createdAt := RequestDoc.createdAt d;
         RequestDoc.requestId := RequestDoc.requestId d;
         RequestDoc.imageUrl := RequestDoc.imageUrl d;
         RequestDoc.error := Some err;
         RequestDoc.completedAt := Some t |}
  end.

(** *** Writes, as a transaction buffers them *)
Inductive Write :=
| UpdateUser (user_id : string) (credits : Z) (updatedAt : Z)
| SetUser (user_id : string) (doc : UserDoc.t)
| SetTransaction (doc : TransactionDoc.t)
| SetRequest (request_id : string) (doc : RequestDoc.t).

(** One write against the store; [update] of a missing document is an
    error. *)
Definition apply_write (wr : Write) (d : Db) : option Db :=
  match wr with
  | UpdateUser u c t =>
      match users d !! u with
      | Some doc =>
          Some {| users := <[u := set_user_credits doc c t]> (users d);
                  credit_transactions := credit_transactions d;
                  generation_requests := generation_requests d;
                  weekly_reports := weekly_reports d |}
      | None => None
      end
  | SetUser u doc =>
      Some {| users := <[u := doc]> (users d);
              credit_transactions := credit_transactions d;
              generation_requests := generation_requests d;
              weekly_reports := weekly_reports d |}
  | SetTransaction doc =>
      Some {| users := users d;
              credit_transactions := credit_transactions d ++ [doc];
              generation_requests := generation_requests d;
              weekly_reports := weekly_reports d |}
  | SetRequest i doc =>
      Some {| users := users d;
              credit_transactions := credit_transactions d;
              generation_requests := set_doc i doc (generation_requests d);
              weekly_reports := weekly_reports d |}
  end.

(** All the writes of a transaction, in order, or none of them. *)
Fixpoint commit (ws : list Write) (d : Db) : option Db :=
  match ws with
  | [] => Some d
  | wr :: rest =>
      match apply_write wr d with
      | Some d' => commit rest d'
      | None => None
      end
  end.

(** The state inside a transaction: the run, and the buffered writes. *)
Record Tx := {
  sys : Sys;
  writes : list Write
}.

Definition with_db (s : Sys) (d : Db) : Sys :=
  {| db := d; clock_reads := clock_reads s; ids_drawn := ids_drawn s;
     calls := calls s |}.

Section Client.
Variable w : World.

(** [datetime.now(timezone.utc)] *)
Definition now : M Sys Z :=
  fun s => (Ok (clock w (clock_reads s)),
            {| db := db s; clock_reads := S (clock_reads s);
               ids_drawn := ids_drawn s; calls := calls s |}).

(** [collection.document().id]: a new reference, made locally. *)
Definition document : M Sys string :=
  fun s => (Ok (auto_id w (ids_drawn s)),
            {| db := db s; clock_reads := clock_reads s;
               ids_drawn := S (ids_drawn s); calls := calls s |}).

(** A remote call: it consumes one outcome of the world and raises
    when that outcome is a failure. *)
Definition rpc : M Sys unit :=
  fun s =>
    let s' := {| db := db s; clock_reads := clock_reads s;
                 ids_drawn := ids_drawn s; calls := S (calls s) |} in
    if fault w (calls s) then (Raise StoreError, s') else (Ok tt, s').

Definition read {A} (f : Db -> A) : M Sys A := fun s => (Ok (f (db s)), s).

(** A direct write [ref.set(..)] or [ref.update(..)]. *)
Definition write (wr : Write) : M Sys unit :=
  bind rpc (fun _ s =>
    match apply_write wr (db s) with
    | Some d' => (Ok tt, with_db s d')
    | None => (Raise StoreError, s)
    end).

(** [users.document(user_id).get()] *)
Definition get_user (user_id : string) : M Sys (option UserDoc.t) :=
  bind rpc (fun _ => read (fun d => users d !! user_id)).

(** [request_ref.update(fields)] *)
Definition update_request (request_id : string) (u : RequestUpdate)
  : M Sys unit :=
  bind rpc (fun _ s =>
    match lookup_doc request_id (generation_requests (db s)) with
    | Some doc =>
        (Ok tt,
         with_db s
           {| users := users (db s);
              credit_transactions := credit_transactions (db s);
              generation_requests :=
                set_doc request_id (apply_request_update u doc)
                        (generation_requests (db s));
              weekly_reports := weekly_reports (db s) |})
    | None => (Raise StoreError, s)
    end).

(** [reports.document().set(report)] *)
Definition add_report (doc : ReportDoc.t) : M Sys unit :=
  bind rpc (fun _ s =>
    (Ok tt,
     with_db s
       {| users := users (db s);
          credit_transactions := credit_transactions (db s);
          generation_requests := generation_requests (db s);
          weekly_reports := weekly_reports (db s) ++ [doc] |})).

(** A query's [stream()]: one remote call, then the matching
    documents. *)
Definition stream {A} (f : Db -> list A) : M Sys (list A) :=
  bind rpc (fun _ => read f).

(** *** Transactions *)

(** A step of the run, taken inside a transaction. *)
Definition lift {A} (m : M Sys A) : M Tx A :=
  fun t => let (r, s') := m (sys t) in
           (r, {| sys := s'; writes := writes t |}).

(** What [transaction.get(ref)] returns: the generator of the client's
    [get_all], over the snapshots of the one document [ref] names.  A
    generator runs nothing until it is iterated, so the call itself reads
    nothing. *)
Inductive SnapshotGenerator :=
| snapshots_of (user_id : string).

(** [transaction.get(user_ref)] *)
Definition tx_get_user (user_id : string) : M Tx SnapshotGenerator :=
  ret (snapshots_of user_id).

(** [user_doc.exists] and [user_doc.to_dict()] where [user_doc] is that
    generator: a generator has neither attribute. *)
Definition generator_exists (user_doc : SnapshotGenerator) : Res bool :=
  Raise AttributeError.

Definition generator_to_dict (user_doc : SnapshotGenerator) : Res UserDoc.t :=
  Raise AttributeError.

(** [transaction.update(..)] and [transaction.set(..)] only buffer. *)
Definition tx_write (wr : Write) : M Tx unit :=
  fun t => (Ok tt, {| sys := sys t; writes := writes t ++ [wr] |}).

(** [transaction._rollback()] while an exception [e] is being handled, on
    a transaction in progress: one remote call, after which [e] goes on;
    when the call fails, its own exception goes on instead. *)
Definition rollback_and_raise {A} (e : exn) : M Sys A :=
  fun s => match rpc s with
           | (Raise e', s') => (Raise e', s')
           | (Ok _, s') => (Raise e, s')
           end.

(** The number of attempts of a transaction, [MAX_ATTEMPTS]. *)
Definition MAX_ATTEMPTS : nat := 5.

(** The loop of [@firestore.transactional], with [left] attempts left.
    An attempt begins the transaction (one call), runs the body and
    commits its writes (one call), all of them or none.  A body that
    raises ends the loop: the transaction is rolled back and the
    exception goes on.  A commit that fails with [Aborted] leads to the
    next attempt, which runs the body again; any other failing commit is
    rolled back and raised.  When the attempts are used up, or the begin
    call fails, the client raises an exception of its own. *)
Fixpoint attempt {A} (left : nat) (body : M Tx A) : M Sys A :=
  match left with
  | O => rollback_and_raise StoreError
  | S left' =>
      fun s =>
        match rpc s with
        | (Raise _, s1) => (Raise StoreError, s1)
        | (Ok _, s1) =>
            match body {| sys := s1; writes := [] |} with
            | (Raise e, t) => rollback_and_raise e (sys t)
            | (Ok a, t) =>
                match rpc (sys t) with
                | (Raise _, s2) =>
                    if aborted w (calls (sys t)) then attempt left' body s2
                    else rollback_and_raise StoreError s2
                | (Ok _, s2) =>
                    match commit (writes t) (db s2) with
                    | Some d' => (Ok a, with_db s2 d')
                    | None => rollback_and_raise StoreError s2
                    end
                end
            end
        end
  end.

(** [@firestore.transactional], applied to a new transaction. *)
Definition transactional {A} (body : M Tx A) : M Sys A :=
  attempt MAX_ATTEMPTS body.
End Client.

End Firestore.

Notation "'let*' x ':=' m 'in' k" := (Firestore.bind m (fun x => k))
  (at level 10, x name, m at level 100, k at level 200).
Notation "'do' m 'in' k" := (Firestore.bind m (fun _ => k))
  (at level 10, m at level 100, k at level 200).

(** ** services/credit_service.py

    Logging is left out: it has no bearing on results or on the store.
    Inside a transaction the code reads the account through
    [transaction.get], whose result the client library hands back as a
    generator; the attribute reads on it are modelled as the library has
    them. *)

Module CreditService.
Import Py Firestore Transaction.

(** [str(n)] for an [int]. *)
Definition str_int (n : Z) : string := pretty n.

(** [doc.to_dict().get("credits", 0)] *)
Definition credits_of (doc : UserDoc.t) : Z := default 0 (UserDoc.credits doc).

Section Service.
Variable w : World.

Definition get_user_credits (user_id : string) : M Sys Z :=
  catch
    (let* user_doc := get_user w user_id in
     match user_doc with
     | Some doc => ret (credits_of doc)
     | None => ret 0
     end)
    (fun _ => ret 0).

Definition deduct_credits (user_id : string) (amount : Z)
           (generation_request_id : string) : M Tx bool :=
  catch
    (let* user_doc := tx_get_user user_id in
     let* found := of_res (generator_exists user_doc) in
     if negb found then ret false
     else
       let* doc := of_res (generator_to_dict user_doc) in
       let current_credits := credits_of doc in
       if current_credits <? amount then ret false
       else
         let new_credits := current_credits - amount in
         let* updated_at := lift (now w) in
         do tx_write (UpdateUser user_id new_credits updated_at) in
         let* created := lift (now w) in
         let credit_transaction :=
           {| user_id := user_id;
              type := DEDUCTION;
              credits := amount;
              reason := "Image generation - " +:+ str_int amount +:+ " credits";
              transaction_id := None;
              generation_request_id := Some generation_request_id;
              timestamp := created |} in
         let* transaction_ref := lift (document w) in
         let credit_transaction :=
           set_transaction_id credit_transaction transaction_ref in
         do tx_write (SetTransaction (to_dict credit_transaction)) in
         ret true)
    (fun _ => ret false).

(** The body that [refund_credits] hands to the transaction runner. *)
Definition refund_transaction (user_id : string) (amount : Z)
           (generation_request_id : string) : M Tx bool :=
  let* user_doc := tx_get_user user_id in
  let* found := of_res (generator_exists user_doc) in
  do (if negb found then
        let* created_at := lift (now w) in
        let* updated_at := lift (now w) in
        tx_write (SetUser user_id
                    {| UserDoc.userId := user_id;
                       UserDoc.credits := Some amount;
                       UserDoc.email := None;
                       UserDoc.createdAt := created_at;
                       UserDoc.updatedAt := updated_at |})
      else
        let* doc := of_res (generator_to_dict user_doc) in
        let current_credits := credits_of doc in
        let new_credits := current_credits + amount in
        let* updated_at := lift (now w) in
        tx_write (UpdateUser user_id new_credits updated_at)) in
  let* created := lift (now w) in
  let credit_transaction :=
    {| user_id := user_id;
       type := REFUND;
       credits := amount;
       reason := "Refund for failed generation - " +:+ str_int amount
                 +:+ " credits";
       transaction_id := None;
       generation_request_id := Some generation_request_id;
       timestamp := created |} in
  let* transaction_ref := lift (document w) in
  let credit_transaction :=
    set_transaction_id credit_transaction transaction_ref in
  do tx_write (SetTransaction (to_dict credit_transaction)) in
  ret true.

Definition refund_credits (user_id : string) (amount : Z)
           (generation_request_id : string) : M Sys bool :=
  catch
    (do transactional w
          (refund_transaction user_id amount generation_request_id) in
     ret true)
    (fun _ => ret false).

Definition create_user_with_credits (user_id : string) (initial_credits : Z)
           (email : option string) : M Sys bool :=
  catch
    (let* created_at := now w in
     let* updated_at := now w in
     let user_data :=
       {| UserDoc.userId := user_id;
          UserDoc.credits := Some initial_credits;
          UserDoc.email := truthy email;
          UserDoc.createdAt := created_at;
          UserDoc.updatedAt := updated_at |} in
     do write w (SetUser user_id user_data) in
     let* created := now w in
     let credit_transaction :=
       {| user_id := user_id;
          type := CREDIT;
          credits := initial_credits;
          reason := "Initial credit allocation - " +:+ str_int initial_credits
                    +:+ " credits";
          transaction_id := None;
          generation_request_id := None;
          timestamp := created |} in
     let* transaction_ref := document w in
     let credit_transaction :=
       set_transaction_id credit_transaction transaction_ref in
     do write w (SetTransaction (to_dict credit_transaction)) in
     ret true)
    (fun _ => ret false).

End Service.

End CreditService.

(** ** services/generation_service.py

    The simulated processing time ([random.uniform] and [time.sleep]) and
    the logging have no bearing on the result; the handler that logs and
    re-raises is the identity. *)

Module GenerationService.
Import Py Firestore.

(** The float that the literal [0.05] denotes. *)
Definition MODEL_A_FAILURE_RATE : float := SFdiv prec emax (exact 5) (exact 100).
Definition MODEL_B_FAILURE_RATE : float := SFdiv prec emax (exact 5) (exact 100).

Definition MODEL_A_BASE_URL : string := "https://placeholder-model-a.com/image".
Definition MODEL_B_BASE_URL : string := "https://placeholder-model-b.com/image".

Definition error_messages : list string :=
  ["AI model temporarily unavailable"; "Generation timeout";
   "Invalid prompt processing"; "Resource allocation failed";
   "Model inference error"].

Definition generate_image (w : World)
           (request_id model style color size prompt : string) : Res string :=
  let failure_rate :=
    if String.eqb model "Model A" then MODEL_A_FAILURE_RATE
    else MODEL_B_FAILURE_RATE in
  if SFltb (roll w) failure_rate then
    let error_msg :=
      nth (pick w mod length error_messages) error_messages "" in
    Raise (Exception error_msg)
  else
    let timestamp := millis w in
    let unique_id := request_id +:+ "_" +:+ CreditService.str_int timestamp in
    if String.eqb model "Model A"
    then Ok (MODEL_A_BASE_URL +:+ "_" +:+ unique_id +:+ ".jpg")
    else Ok (MODEL_B_BASE_URL +:+ "_" +:+ unique_id +:+ ".jpg").

End GenerationService.

(** ** main.py: [createGenerationRequest]

    The request body is whatever [get_json] makes of it: any JSON value,
    or an exception.  Headers are the same on every response and are left
    out. *)

Module Main.
Import Py Firestore Request.

(** [req.get_json()] parses the body: it returns the JSON value, or
    raises (a body that is not JSON, or is not declared as such). *)
Record HttpRequest := {
  method : string;
  get_json : Res Json
}.

(** The JSON bodies that the handler sends. *)
Inductive Body :=
| Error (error : string)
| InsufficientCredits (error : string) (required available : Z)
| Generated (generationRequestId : string) (deductedCredits : Z)
            (imageUrl : string)
| GenerationFailed (error details : string) (creditsRefunded : Z).

Record Response := {
  status : Z;
  body : Body
}.

(** [data[key]], used as a string.  Once validation has passed, each of
    the six keys holds a string. *)
Definition item (data : gmap string JVal) (key : string) : Res string :=
  match data !! key with
  | Some (JStr s) => Ok s
  | Some _ => Raise TypeError
  | None => Raise KeyError
  end.

(** [data[key]] on the body: only an object is indexed by a string. *)
Definition subscript (data : Json) (key : string) : Res string :=
  match data with
  | Object fields => item fields key
  | _ => Raise TypeError
  end.

Definition set_request_id (self : GenerationRequest) (i : string)
  : GenerationRequest :=
  {| request_id := Some i; user_id := user_id self; model := model self;
     style := style self; color := color self; size := size self;
     prompt := prompt self; Request.status := Request.status self;
     image_url := image_url self; error := error self;
     credits_charged := credits_charged self; created_at := created_at self;
     completed_at := completed_at self |}.

Section Handler.
Variable w : World.

(** The function handed to the transaction runner. *)
Definition create_request_transaction (user_id : string) (credit_cost : Z)
           (request_ref : string) (generation_request : GenerationRequest)
  : M Tx bool :=
  let* success :=
    CreditService.deduct_credits w user_id credit_cost request_ref in
  if negb success then raise (Exception "Failed to deduct credits")
  else
    do tx_write (SetRequest request_ref (to_dict generation_request)) in
    ret true.

Definition createGenerationRequest (req : HttpRequest) : M Sys Response :=
  catch
    (if negb (String.eqb (method req) "POST") then
       ret {| status := 405; body := Error "Method not allowed" |}
     else
       let* data := of_res (get_json req) in
       if negb (truth data) then
         ret {| status := 400; body := Error "Invalid request body" |}
       else
       let* validation_result :=
         of_res (RequestValidator.validate_body data) in
       match validation_result with
       | RequestValidator.Invalid error =>
           ret {| status := 400; body := Error error |}
       | RequestValidator.Valid =>
           let* user_id := of_res (subscript data "userId") in
           let* model := of_res (subscript data "model") in
           let* style := of_res (subscript data "style") in
           let* color := of_res (subscript data "color") in
           let* size := of_res (subscript data "size") in
           let* prompt := of_res (subscript data "prompt") in
           let credit_cost := RequestValidator.get_credit_cost size in
           let* user_credits :=
             CreditService.get_user_credits w user_id in
           let* insufficient :=
             of_res (lt_opt user_credits credit_cost) in
           match credit_cost with
           | None => raise TypeError   (* the comparison has raised *)
           | Some credit_cost =>
               if insufficient then
                 ret {| status := 402;
                        body := InsufficientCredits "Insufficient credits"
                                  credit_cost user_credits |}
               else
                 let* created_at := now w in
                 let generation_request :=
                   {| request_id := None; user_id := user_id;
                      model := model; style := style; color := color;
                      size := size; prompt := prompt;
                      Request.status := PENDING;
                      image_url := None; error := None;
                      credits_charged := credit_cost;
                      created_at := created_at;
                      completed_at := None |} in
                 let* request_ref := document w in
                 let generation_request :=
                   set_request_id generation_request request_ref in
                 do transactional w
                      (create_request_transaction user_id credit_cost
                         request_ref generation_request) in
                 catch
                   (let* image_url :=
                      of_res (GenerationService.generate_image w
                                request_ref model style color size
                                prompt) in
                    let* completed_at := now w in
                    do update_request w request_ref
                         (completed image_url completed_at) in
                    ret {| status := 200;
                           body := Generated request_ref credit_cost
                                     image_url |})
                   (fun e =>
                      let* completed_at := now w in
                      do update_request w request_ref
                           (failed (str e) completed_at) in
                      let* _ :=
                        CreditService.refund_credits w user_id
                          credit_cost request_ref in
                      ret {| status := 500;
                             body := GenerationFailed
                                       "Image generation failed"
                                       (str e) credit_cost |})
           end
       end)
    (fun _ => ret {| status := 500; body := Error "Internal server error" |}).

End Handler.

End Main.

(** ** services/report_service.py *)

Module ReportService.
Import Py Firestore ReportDoc.

(** One day and seven days, in microseconds. *)
Definition day : Z := 86400 * 1000000.
Definition week : Z := 7 * day.

(** [t.replace(hour=0, minute=0, second=0, microsecond=0)] *)
Definition midnight (t : Z) : Z := t - t mod day.

(** [counts[key] += n] on a [defaultdict(int)]; keys keep the order in
    which they were first seen. *)
Fixpoint bump (key : string) (n : Z) (counts : list (string * Z))
  : list (string * Z) :=
  match counts with
  | [] => [(key, n)]
  | (k, v) :: rest =>
      if String.eqb key k then (k, v + n) :: rest
      else (k, v) :: bump key n rest
  end.

(** The counters of the first loop. *)
Record Counters := {
  total_requests : Z;
  successful_requests : Z;
  failed_requests : Z;
  requests_by_model : list (string * Z);
  requests_by_size : list (string * Z);
  requests_by_style : list (string * Z);
  requests_by_color : list (string * Z);
  credits_by_size : list (string * Z)
}.

Definition zero : Counters :=
  {| total_requests := 0; successful_requests := 0; failed_requests := 0;
     requests_by_model := []; requests_by_size := [];
     requests_by_style := []; requests_by_color := [];
     credits_by_size := [] |}.

(** One turn of the loop over the requests of the window. *)
Definition count_request (acc : Counters) (request_data : RequestDoc.t)
  : Counters :=
  let status := default "pending" (RequestDoc.status request_data) in
  let model := default "Unknown" (RequestDoc.model request_data) in
  let size := default "Unknown" (RequestDoc.size request_data) in
  let style := default "Unknown" (RequestDoc.style request_data) in
  let color := default "Unknown" (RequestDoc.color request_data) in
  let credits := default 0 (RequestDoc.creditsCharged request_data) in
  {| total_requests := total_requests acc + 1;
     successful_requests :=
       if String.eqb status "completed" then successful_requests acc + 1
       else successful_requests acc;
     failed_requests :=
       if String.eqb status "completed" then failed_requests acc
       else if String.eqb status "failed" then failed_requests acc + 1
            else failed_requests acc;
     requests_by_model := bump model 1 (requests_by_model acc);
     requests_by_size := bump size 1 (requests_by_size acc);
     requests_by_style := bump style 1 (requests_by_style acc);
     requests_by_color := bump color 1 (requests_by_color acc);
     credits_by_size :=
       if String.eqb status "completed"
       then bump size credits (credits_by_size acc)
       else credits_by_size acc |}.

(** One turn of the loop over the transactions of the window; the pair is
    [(total_credits_consumed, total_credits_refunded)]. *)
Definition count_transaction (acc : Z * Z) (transaction_data : TransactionDoc.t)
  : Z * Z :=
  let transaction_type := TransactionDoc.type transaction_data in
  let credits := default 0 (TransactionDoc.credits transaction_data) in
  if bool_decide (transaction_type = Some "deduction")
  then (fst acc + credits, snd acc)
  else if bool_decide (transaction_type = Some "refund")
       then (fst acc, snd acc + credits)
       else acc.

Definition in_window (start_date end_date t : Z) : bool :=
  (start_date <=? t) && (t <? end_date).

(** [(a / b) * 100] *)
Definition percent (a b : Z) : Res float :=
  let? q := truediv a b in Ok (mul_int q 100).

(** The three checks.  Each yields the anomalies it appends, or raises. *)
Definition volume_check (total_requests prev_total : Z) : Res (list Anomaly) :=
  if 0 <? prev_total then
    let? change_percent := percent (total_requests - prev_total) prev_total in
    if gt_int (fabs change_percent) 50 then
      Ok [request_volume_spike
            ("Request volume changed by " +:+ format_1f change_percent +:+ "%")
            (if gt_int (fabs change_percent) 100 then "high" else "medium")
            total_requests prev_total]
    else Ok []
  else Ok [].

Definition failure_check (total_requests failed_requests : Z)
  : Res (list Anomaly) :=
  if 0 <? total_requests then
    let? failure_rate := percent failed_requests total_requests in
    if gt_int failure_rate 10 then
      Ok [high_failure_rate
            ("Failure rate is " +:+ format_1f failure_rate +:+ "%")
            (if gt_int failure_rate 20 then "high" else "medium")
            failure_rate]
    else Ok []
  else Ok [].

Definition model_check (total_requests : Z) (entry : string * Z)
  : Res (list Anomaly) :=
  let (model, count) := entry in
  if 0 <? total_requests then
    let? model_percent := percent count total_requests in
    if gt_int model_percent 80 then
      Ok [model_imbalance
            (model +:+ " accounts for " +:+ format_1f model_percent
             +:+ "% of requests")
            "low" model model_percent]
    else Ok []
  else Ok [].

(** The list [anomalies] is filled step by step; when a step raises, the
    enclosing [except] keeps what the earlier steps appended. *)
Fixpoint collect (steps : list (Res (list Anomaly))) : list Anomaly :=
  match steps with
  | [] => []
  | Ok found :: rest => found ++ collect rest
  | Raise _ :: _ => []
  end.

(** The body of [_detect_anomalies] once the previous report has been
    looked up.  A stored report is never the empty dictionary, so
    [if previous_report:] asks whether one was found. *)
Definition compare (previous_report : option ReportDoc.t)
           (total_requests failed_requests : Z)
           (requests_by_model : list (string * Z)) : list Anomaly :=
  match previous_report with
  | Some report =>
      let prev_total := default 0 (totalRequests report) in
      collect (volume_check total_requests prev_total
               :: failure_check total_requests failed_requests
               :: map (model_check total_requests) requests_by_model)
  | None =>
      collect [failure_check total_requests failed_requests]
  end.

(** The query for the previous week's report, [limit(1)]: the first
    report whose week starts seven days before [start_date]. *)
Definition previous_week (start_date : Z) (d : Db) : option ReportDoc.t :=
  List.find (fun r => weekStartDate r =? start_date - week) (weekly_reports d).

Section Service.
Variable w : World.

Definition _detect_anomalies (total_requests failed_requests : Z)
           (requests_by_model : list (string * Z)) (start_date : Z)
  : M Sys (list Anomaly) :=
  catch
    (do rpc w in
     let* previous_report := read (previous_week start_date) in
     ret (compare previous_report total_requests failed_requests
                  requests_by_model))
    (fun _ => ret []).

Definition generate_weekly_report : M Sys string :=
  let* t := now w in
  let end_date := midnight t in
  let start_date := end_date - week in
  let* requests :=
    stream w (fun d =>
      List.filter
        (fun r => in_window start_date end_date (RequestDoc.createdAt r))
        (map snd (generation_requests d))) in
  let counters := fold_left count_request requests zero in
  let* transactions :=
    stream w (fun d =>
      List.filter
        (fun r => in_window start_date end_date (TransactionDoc.timestamp r))
        (credit_transactions d)) in
  let (total_credits_consumed, total_credits_refunded) :=
    fold_left count_transaction transactions (0, 0) in
  let* anomalies :=
    _detect_anomalies (total_requests counters) (failed_requests counters)
                      (requests_by_model counters) start_date in
  let* success_rate :=
    if 0 <? total_requests counters then
      let* rate :=
        of_res (percent (successful_requests counters)
                        (total_requests counters)) in
      ret (Float rate)
    else ret (Int 0) in
  let* created_at := now w in
  let report_data :=
    {| weekStartDate := start_date;
       weekEndDate := end_date;
       totalRequests := Some (total_requests counters);
       successfulRequests := successful_requests counters;
       failedRequests := failed_requests counters;
       successRate := round_number2 success_rate;
       totalCreditsConsumed := total_credits_consumed;
       totalCreditsRefunded := total_credits_refunded;
       netCreditsUsed := total_credits_consumed - total_credits_refunded;
       requestsByModel := requests_by_model counters;
       requestsBySize := requests_by_size counters;
       requestsByStyle := requests_by_style counters;
       requestsByColor := requests_by_color counters;
       creditsBySize := credits_by_size counters;
       anomalies := anomalies;
       createdAt := created_at |} in
  let* report_ref := document w in
  do add_report w report_data in
  ret report_ref.

End Service.

End ReportService.

(** ** main.py: [scheduleWeeklyReport]

    The scheduled job logs, and hands on what the report engine raises. *)

Module Scheduler.
Import Py Firestore.

Record JobResult := {
  reportStatus : string;
  reportId : string
}.

Definition scheduleWeeklyReport (w : World) : M Sys JobResult :=
  catch
    (let* report_id := ReportService.generate_weekly_report w in
     ret {| reportStatus := "success"; reportId := report_id |})
    (fun e => raise e).

End Scheduler.

(* ===================================================================== *)
(** * Part II: the vocabulary of the properties, and sample data          *)
(* ===================================================================== *)

(** ** Validation: accepted payloads, and a sample payload *)

Module ValidatorSpec.
Import Py RequestValidator.

(** What the loop over the required fields lets through. *)
Definition field_ok (data : gmap string JVal) (field : string) : Prop :=
  exists v, data !! field = Some v /\
    forall s, v = JStr s -> field ∈ ["userId"; "prompt"] -> is_empty (strip s) = false.

Ltac eval_guard f :=
  let b := eval vm_compute in (bool_decide (f ∈ ["userId"; "prompt"])) in
  change (bool_decide (f ∈ ["userId"; "prompt"])) with b.

(** Every field but the prompt is present and passes its check. *)
Record fields_valid (data : gmap string JVal)
       (user_id model style color size : string) : Prop := {
  fv_userId : data !! "userId" = Some (JStr user_id);
  fv_userId_nonempty : is_empty (strip user_id) = false;
  fv_model : data !! "model" = Some (JStr model);
  fv_model_valid : model ∈ VALID_MODELS;
  fv_style : data !! "style" = Some (JStr style);
  fv_style_valid : style ∈ VALID_STYLES;
  fv_color : data !! "color" = Some (JStr color);
  fv_color_valid : color ∈ VALID_COLORS;
  fv_size : data !! "size" = Some (JStr size);
  fv_size_valid : size ∈ VALID_SIZES
}.

Definition prompt_verdict (prompt : string) : Verdict :=
  if is_empty (strip prompt) then Invalid "Prompt cannot be empty"
  else if 1000 <? len (strip prompt)
       then Invalid "Prompt must be less than 1000 characters"
       else Valid.

(** A well-formed payload around a given prompt. *)
Definition sample (prompt : string) : gmap string JVal :=
  list_to_map
    [("userId", JStr "user123"); ("model", JStr "Model A");
     ("style", JStr "realistic"); ("color", JStr "vibrant");
     ("size", JStr "1024x1024"); ("prompt", JStr prompt)].

End ValidatorSpec.

(** ** The ledger: operation sequences, what the records say, sample stores *)

Module LedgerSpec.
Import Py Firestore Transaction CreditService.

(** *** Sequences of ledger operations *)

Inductive LedgerOp :=
| Create (user_id : string) (initial_credits : Z) (email : option string)
| Deduct (user_id : string) (amount : Z) (generation_request_id : string)
| Refund (user_id : string) (amount : Z) (generation_request_id : string).

Definition amount_of (op : LedgerOp) : Z :=
  match op with
  | Create _ a _ => a
  | Deduct _ a _ => a
  | Refund _ a _ => a
  end.

(** A charge the way [main.py] runs it: [deduct_credits] inside a
    transaction that is abandoned when the deduction reports failure. *)
Definition charge (w : World) (user_id : string) (amount : Z)
           (generation_request_id : string) : M Sys bool :=
  transactional w
    (let* success := deduct_credits w user_id amount generation_request_id in
     if success then ret true
     else raise (Exception "Failed to deduct credits")).

Definition step (w : World) (op : LedgerOp) (s : Sys) : Sys :=
  match op with
  | Create u a e => snd (create_user_with_credits w u a e s)
  | Deduct u a r => snd (charge w u a r s)
  | Refund u a r => snd (refund_credits w u a r s)
  end.

Definition run (w : World) (ops : list LedgerOp) (s : Sys) : Sys :=
  fold_left (fun s op => step w op s) ops s.

(** The ledger's view of a store: the balance it holds for a user, and
    the sum of that user's transaction records of one type. *)
Definition balance (d : Db) (user_id : string) : Z :=
  match users d !! user_id with
  | Some doc => credits_of doc
  | None => 0
  end.

Definition is_record (user_id : string) (ty : TransactionType)
           (doc : TransactionDoc.t) : bool :=
  String.eqb (TransactionDoc.userId doc) user_id
  && bool_decide (TransactionDoc.type doc = Some (value ty)).

Definition total (d : Db) (user_id : string) (ty : TransactionType) : Z :=
  foldr (fun doc acc =>
           if is_record user_id ty doc
           then default 0 (TransactionDoc.credits doc) + acc else acc)
        0 (credit_transactions d).

(** The run after [n] more clock readings, [i] more generated ids and
    [c] more remote calls. *)
Definition advance (s : Sys) (n i c : nat) : Sys :=
  {| db := db s; clock_reads := n + clock_reads s;
     ids_drawn := i + ids_drawn s; calls := c + calls s |}.

(** What a transaction record says, read the way [getUserCredits] reads
    it: an absent request id reads as the empty string. *)
Record records (doc : TransactionDoc.t) (user_id : string)
       (ty : TransactionType) (amount : Z) (request_id : string) : Prop := {
  rec_user : TransactionDoc.userId doc = user_id;
  rec_type : TransactionDoc.type doc = Some (value ty);
  rec_credits : TransactionDoc.credits doc = Some amount;
  rec_request : default "" (TransactionDoc.generationRequestId doc) = request_id;
  rec_request_stored :
    request_id <> "" -> TransactionDoc.generationRequestId doc = Some request_id
}.

(** The store after a user document is put, and after a transaction
    record is added. *)
Definition put_user (d : Db) (user_id : string) (doc : UserDoc.t) : Db :=
  {| users := <[user_id := doc]> (users d);
     credit_transactions := credit_transactions d;
     generation_requests := generation_requests d;
     weekly_reports := weekly_reports d |}.

Definition add_transaction (d : Db) (doc : TransactionDoc.t) : Db :=
  {| users := users d;
     credit_transactions := credit_transactions d ++ [doc];
     generation_requests := generation_requests d;
     weekly_reports := weekly_reports d |}.

(** The record that [create_user_with_credits] writes. *)
Definition grant_record (w : World) (s : Sys) (user_id : string) (amount : Z)
  : TransactionDoc.t :=
  to_dict {| user_id := user_id; type := CREDIT; credits := amount;
             reason := "Initial credit allocation - " +:+ str_int amount
                       +:+ " credits";
             transaction_id := Some (auto_id w (ids_drawn s));
             generation_request_id := None;
             timestamp := clock w (2 + clock_reads s) |}.

Definition seeded_account (w : World) (s : Sys) (user_id : string)
           (amount : Z) (email : option string) : UserDoc.t :=
  {| UserDoc.userId := user_id; UserDoc.credits := Some amount;
     UserDoc.email := truthy email;
     UserDoc.createdAt := clock w (clock_reads s);
     UserDoc.updatedAt := clock w (S (clock_reads s)) |}.

(** A world in which nothing fails, for examples. *)
Definition quiet : World :=
  {| clock := fun n => 1000 + Z.of_nat n;
     auto_id := fun n => "doc" +:+ pretty n;
     fault := fun _ => false;
     aborted := fun _ => false;
     roll := S754_zero false;
     pick := 0;
     millis := 0 |}.

(** A world in which the second remote call fails; as a commit, it fails
    with [Aborted]. *)
Definition contended : World :=
  {| clock := clock quiet; auto_id := auto_id quiet;
     fault := fun k => Nat.eqb k 1;
     aborted := fun k => Nat.eqb k 1;
     roll := roll quiet; pick := 0; millis := 0 |}.

Definition account (user_id : string) (c : Z) : UserDoc.t :=
  {| UserDoc.userId := user_id; UserDoc.credits := Some c;
     UserDoc.email := None; UserDoc.createdAt := 0; UserDoc.updatedAt := 0 |}.

(** A store holding one account, ["alice"] with ten credits. *)
Definition alice10 : Db := put_user empty "alice" (account "alice" 10).

Definition tx0 (d : Db) : Tx := {| sys := boot d; writes := [] |}.

(** What the records say a user's balance should be. *)
Definition ledger_sum (d : Db) (user_id : string) : Z :=
  total d user_id CREDIT + total d user_id REFUND - total d user_id DEDUCTION.

Definition balanced (d : Db) : Prop :=
  forall user_id, balance d user_id = ledger_sum d user_id.

(** The change that a record of type [ty] and amount [a] stands for. *)
Definition delta (ty : TransactionType) (a : Z) : Z :=
  match ty with
  | DEDUCTION => - a
  | _ => a
  end.

(** [create_user_with_credits] is applied to users without an account,
    and it succeeds. *)
Fixpoint creates_fresh (w : World) (ops : list LedgerOp) (s : Sys) : Prop :=
  match ops with
  | [] => True
  | op :: rest =>
      match op with
      | Create u a e =>
          users (db s) !! u = None /\
          fst (create_user_with_credits w u a e s) = Ok true
      | _ => True
      end /\ creates_fresh w rest (step w op s)
  end.

Definition sample_ops : list LedgerOp :=
  [Create "alice" 10 None; Deduct "alice" 3 "req1"; Refund "alice" 3 "req1";
   Refund "bob" 2 "req2"; Deduct "alice" 11 "req3"; Deduct "alice" 4 "req4"].

(** Every stored account carries a [credits] value, and it is not
    negative. *)
Definition nonneg (d : Db) : Prop :=
  forall user_id doc,
    users d !! user_id = Some doc ->
    exists c, UserDoc.credits doc = Some c /\ 0 <= c.

End LedgerSpec.

(** ** The orchestrator: sample requests and worlds *)

Module OrchestratorSpec.
Import Py Firestore Transaction CreditService RequestValidator Main.
Import ValidatorSpec LedgerSpec.

(** A store in which ["user123"] holds ten credits, and a request for a
    1024x1024 image (cost 3). *)
Definition user123 : Db := put_user empty "user123" (account "user123" 10).

Definition post (prompt : string) : HttpRequest :=
  {| method := "POST"; get_json := Ok (Object (sample prompt)) |}.

(** A world whose gateway succeeds.  (In [quiet] the gateway fails: its
    draw is [0.0].) *)
Definition lucky : World :=
  {| clock := clock quiet; auto_id := auto_id quiet; fault := fun _ => false;
     aborted := fun _ => false;
     roll := float_of_int 1; pick := 0; millis := 1700000000000 |}.

End OrchestratorSpec.

(** ** Floats: the overflowing result *)

Module FloatSpec.
Import Py.

(** The one result of a division that [truediv] turns into an
    [OverflowError]. *)
Definition is_infinity (x : spec_float) : bool :=
  match x with
  | S754_infinity _ => true
  | _ => false
  end.

End FloatSpec.

(** ** The report engine: sums over the window, sample weeks *)

Module ReportSpec.
Import Py Firestore ReportDoc ReportService.

(** Counts far below the range of floats.  (Beyond that range Python's
    [int / int] raises [OverflowError], which ends the detection.) *)
Definition bounded (n : Z) : Prop := Z.abs n < 2 ^ 1000.

(** What the failure check appends. *)
Definition failure_flag (rate : float) : Anomaly :=
  high_failure_rate ("Failure rate is " +:+ format_1f rate +:+ "%")
                    (if gt_int rate 20 then "high" else "medium") rate.

Definition imbalance_flag (model : string) (pct : float) : Anomaly :=
  model_imbalance (model +:+ " accounts for " +:+ format_1f pct +:+ "% of requests")
                  "low" model pct.

(** A store that holds the report of the week before the one starting
    at instant [week]. *)
Definition last_week : ReportDoc.t :=
  {| weekStartDate := 0; weekEndDate := week; totalRequests := Some 3;
     successfulRequests := 3; failedRequests := 0; successRate := Float (float_of_int 100);
     totalCreditsConsumed := 9; totalCreditsRefunded := 0; netCreditsUsed := 9;
     requestsByModel := [("Model A", 3)]; requestsBySize := [("1024x1024", 3)];
     requestsByStyle := [("anime", 3)]; requestsByColor := [("neon", 3)];
     creditsBySize := [("1024x1024", 9)]; anomalies := []; createdAt := week |}.

Definition with_report : Db :=
  {| users := ∅; credit_transactions := []; generation_requests := [];
     weekly_reports := [last_week] |}.

(** Rounding to two decimals, said without the algorithm.  [n] is the
    integer nearest to the fraction [num / d] ([0 < d]), ties going to the
    even integer. *)
Definition nearest (num d n : Z) : Prop :=
  2 * Z.abs (num - n * d) <= d /\
  (2 * Z.abs (num - n * d) = d -> Z.even n = true).

(** [r] is the float [x] rounded to two decimals: for a finite [x], of
    exact value [m * 2 ^ e] up to its sign, the number [n] of hundredths
    is the integer nearest to [100 * m * 2 ^ e], and [r] is the float
    nearest to [n / 100], with the sign of [x]; zeros, infinities and NaN
    are left as they are. *)
Definition rounded_to_hundredths (x r : float) : Prop :=
  match x with
  | S754_finite s m e =>
      exists n,
        (if 0 <=? e then n = Zpos m * 2 ^ e * 100
         else nearest (Zpos m * 100) (2 ^ (- e)) n) /\
        r = match n with
            | Zpos p => SFdiv prec emax (S754_finite s p 0) (exact 100)
            | _ => S754_zero s
            end
  | _ => r = x
  end.

(** The sum of [credits] over the records of one type. *)
Definition of_type (ty : string) (doc : TransactionDoc.t) : bool :=
  bool_decide (TransactionDoc.type doc = Some ty).

Fixpoint sum_credits (l : list TransactionDoc.t) : Z :=
  match l with
  | [] => 0
  | doc :: rest => default 0 (TransactionDoc.credits doc) + sum_credits rest
  end.

Definition is_completed (r : RequestDoc.t) : bool :=
  bool_decide (RequestDoc.status r = Some "completed").

(** Scenario 4 of the design document: a window holding six requests
    (three completed, two failed, one pending) and transactions with
    deductions summing to 15 and refunds summing to 5, besides one initial
    grant.  The job runs on day ten; the records are from day five. *)
Definition request_on_day5 (status : string) : RequestDoc.t :=
  {| RequestDoc.userId := "user123"; RequestDoc.model := Some "Model A";
     RequestDoc.style := Some "anime"; RequestDoc.color := Some "neon";
     RequestDoc.size := Some "1024x1024"; RequestDoc.prompt := "a cat";
     RequestDoc.status := Some status; RequestDoc.creditsCharged := Some 3;
     RequestDoc.createdAt := 5 * day; RequestDoc.requestId := None;
     RequestDoc.imageUrl := None; RequestDoc.error := None;
     RequestDoc.completedAt := None |}.

Definition record_on_day5 (ty : string) (credits : Z) : TransactionDoc.t :=
  {| TransactionDoc.userId := "user123"; TransactionDoc.type := Some ty;
     TransactionDoc.credits := Some credits; TransactionDoc.reason := "";
     TransactionDoc.timestamp := 5 * day; TransactionDoc.transactionId := None;
     TransactionDoc.generationRequestId := None |}.

Definition busy_week : Db :=
  {| users := ∅;
     credit_transactions :=
       [record_on_day5 "credit" 50; record_on_day5 "deduction" 4;
        record_on_day5 "deduction" 4; record_on_day5 "deduction" 4;
        record_on_day5 "deduction" 3; record_on_day5 "refund" 4;
        record_on_day5 "refund" 1];
     generation_requests :=
       [("r1", request_on_day5 "completed"); ("r2", request_on_day5 "completed");
        ("r3", request_on_day5 "completed"); ("r4", request_on_day5 "failed");
        ("r5", request_on_day5 "failed"); ("r6", request_on_day5 "pending")];
     weekly_reports := [] |}.

(** A window in which one request out of three has completed, so that
    the success rate is not a decimal with two digits. *)
Definition thirds_week : Db :=
  {| users := ∅;
     credit_transactions :=
       [record_on_day5 "deduction" 3; record_on_day5 "deduction" 3;
        record_on_day5 "refund" 3];
     generation_requests :=
       [("r1", request_on_day5 "completed"); ("r2", request_on_day5 "failed");
        ("r3", request_on_day5 "pending")];
     weekly_reports := [] |}.

Definition day_ten : World :=
  {| clock := fun n => 10 * day + 5 + Z.of_nat n;
     auto_id := auto_id LedgerSpec.quiet; fault := fun _ => false;
     aborted := fun _ => false;
     roll := roll LedgerSpec.quiet; pick := 0; millis := 0 |}.

End ReportSpec.

(** ** Further vocabulary *)

Module MoreSpec.
Import Py Firestore.

(** Every character of [s] passes [f]. *)
Fixpoint all_chars (f : ascii -> bool) (s : string) : bool :=
  match s with
  | EmptyString => true
  | String c rest => f c && all_chars f rest
  end.

(** The last character of a string. *)
Fixpoint last_char (s : string) : option ascii :=
  match s with
  | EmptyString => None
  | String c EmptyString => Some c
  | String _ rest => last_char rest
  end.

End MoreSpec.

(** ** The report's breakdowns, read as dictionaries *)

Module BreakdownSpec.
Import Py Firestore ReportDoc ReportService.

(** [counts.get(key)] *)
Fixpoint entry (key : string) (counts : list (string * Z)) : option Z :=
  match counts with
  | [] => None
  | (k, v) :: rest => if String.eqb key k then Some v else entry key rest
  end.

Fixpoint sum_values (counts : list (string * Z)) : Z :=
  match counts with
  | [] => 0
  | (_, v) :: rest => v + sum_values rest
  end.

(** The label under which a request is counted, and its status as the
    loop reads it. *)
Definition label (field : RequestDoc.t -> option string) (r : RequestDoc.t)
  : string := default "Unknown" (field r).

Definition has_label (field : RequestDoc.t -> option string) (k : string)
           (r : RequestDoc.t) : bool := String.eqb (label field r) k.

Definition has_status (st : string) (r : RequestDoc.t) : bool :=
  String.eqb (default "pending" (RequestDoc.status r)) st.

Definition tally (p : RequestDoc.t -> bool) (l : list RequestDoc.t) : Z :=
  Z.of_nat (length (List.filter p l)).

Fixpoint sum_charged (l : list RequestDoc.t) : Z :=
  match l with
  | [] => 0
  | r :: rest => default 0 (RequestDoc.creditsCharged r) + sum_charged rest
  end.

(** The requests and the window of the run started in [s]. *)
Definition window_end (w : World) (s : Sys) : Z :=
  midnight (clock w (clock_reads s)).

Definition window_start (w : World) (s : Sys) : Z := window_end w s - week.

Definition window_requests (w : World) (s : Sys) : list RequestDoc.t :=
  List.filter
    (fun r => in_window (window_start w s) (window_end w s) (RequestDoc.createdAt r))
    (map snd (generation_requests (db s))).

(** A dictionary filled by a loop that does [counts[key_of r] += wt r]
    for each [r], and the sum of the [wt r] over the [r] filed under [k]. *)
Definition fill {A} (key_of : A -> string) (wt : A -> Z)
           (counts : list (string * Z)) (l : list A) : list (string * Z) :=
  fold_left (fun m r => bump (key_of r) (wt r) m) l counts.

Fixpoint weigh {A} (key_of : A -> string) (wt : A -> Z) (k : string)
         (l : list A) : Z :=
  match l with
  | [] => 0
  | r :: rest =>
      (if String.eqb (key_of r) k then wt r else 0) + weigh key_of wt k rest
  end.

Definition charged (r : RequestDoc.t) : Z :=
  default 0 (RequestDoc.creditsCharged r).

(** A dictionary [counts] that holds, for each label borne by a request of
    [l], how many requests bear it, and nothing else. *)
Record breakdown (field : RequestDoc.t -> option string)
       (l : list RequestDoc.t) (counts : list (string * Z)) : Prop := {
  bd_keys : NoDup (map fst counts);
  bd_entry : forall k n,
      entry k counts = Some n <-> 0 < n /\ n = tally (has_label field k) l;
  bd_total : sum_values counts = Z.of_nat (length l)
}.

(** What the volume check appends. *)
Definition volume_flag (total prev_total : Z) (change : float) : Anomaly :=
  request_volume_spike
    ("Request volume changed by " +:+ format_1f change +:+ "%")
    (if gt_int (fabs change) 100 then "high" else "medium")
    total prev_total.

End BreakdownSpec.

(* ===================================================================== *)
(** * Part III: properties                                                *)
(* ===================================================================== *)

Module ValidatorFacts.
Import Py RequestValidator ValidatorSpec.

Lemma check_required_None data fields :
  check_required data fields = None <-> Forall (field_ok data) fields.
Proof.
  induction fields as [|f rest IH]; simpl.
  - split; auto.
  - split.
    + intros H. destruct (data !! f) as [v|] eqn:Ev; [|discriminate].
      constructor.
      * exists v. split; [exact Ev|]. intros s -> Hin.
        rewrite (bool_decide_eq_true_2 _ Hin) in H. simpl in H.
        destruct (is_empty (strip s)); [discriminate|reflexivity].
      * apply IH. destruct v; try exact H.
        destruct (bool_decide _ && _); [discriminate|exact H].
    + intros H. inversion H as [|? ? [v [Ev Hv]] Hrest]; subst.
      rewrite Ev. apply IH in Hrest.
      destruct v; try exact Hrest.
      case_bool_decide as Hin; simpl; [|exact Hrest].
      rewrite (Hv _ eq_refl Hin). exact Hrest.
Qed.

Lemma validate_prompt data user_id model style color size prompt :
  fields_valid data user_id model style color size ->
  data !! "prompt" = Some (JStr prompt) ->
  validate_generation_request data = Ok (prompt_verdict prompt).
Proof.
  intros [H1 H1' H2 H2' H3 H3' H4 H4' H5 H5'] Hp.
  unfold validate_generation_request, required_fields, prompt_verdict.
  cbn [check_required].
  rewrite H1, H2, H3, H4, H5, Hp.
  eval_guard "userId"; eval_guard "model"; eval_guard "style";
    eval_guard "color"; eval_guard "size"; eval_guard "prompt".
  rewrite H1'. cbn [andb default from_option id strip_val bind in_strings].
  rewrite H1'.
  rewrite (bool_decide_eq_true_2 _ H2'), (bool_decide_eq_true_2 _ H3'),
    (bool_decide_eq_true_2 _ H4'), (bool_decide_eq_true_2 _ H5').
  cbn [negb].
  destruct (is_empty (strip prompt)); [reflexivity|].
  destruct (1000 <? len (strip prompt)); reflexivity.
Qed.

Lemma check_required_Some data fields v :
  check_required data fields = Some v -> valid v = false.
Proof.
  induction fields as [|f rest IH]; simpl; [discriminate|].
  destruct (data !! f) as [w|]; [|intros [= <-]; reflexivity].
  destruct w; try exact IH.
  destruct (bool_decide _ && _); [intros [= <-]; reflexivity|exact IH].
Qed.

(** Validation accepts exactly the payloads whose six fields are strings
    that pass their checks, the prompt being measured once stripped. *)
Lemma validate_valid_inv data :
  validate_generation_request data = Ok Valid ->
  exists user_id model style color size prompt,
    fields_valid data user_id model style color size /\
    data !! "prompt" = Some (JStr prompt) /\
    is_empty (strip prompt) = false /\
    len (strip prompt) <= 1000.
Proof.
  unfold validate_generation_request.
  destruct (check_required data required_fields) as [v|] eqn:Hc.
  { intros [= ->]. apply check_required_Some in Hc. discriminate. }
  apply check_required_None in Hc. unfold required_fields in Hc.
  repeat match goal with
         | H : Forall _ (_ :: _) |- _ =>
             let v := fresh "v" in let E := fresh "E" in
             apply Forall_cons in H; destruct H as [(v & E & _) H]
         end.
  rewrite E, E0, E1, E2, E3, E4.
  cbn [default from_option id].
  destruct v; cbn [strip_val bind]; try discriminate.
  destruct (is_empty (strip s)) eqn:Hu; [discriminate|].
  destruct v0; cbn [in_strings negb]; try discriminate.
  case_bool_decide as Hm; cbn [negb]; [|discriminate].
  destruct v1; cbn [in_strings negb]; try discriminate.
  case_bool_decide as Hs; cbn [negb]; [|discriminate].
  destruct v2; cbn [in_strings negb]; try discriminate.
  case_bool_decide as Hcol; cbn [negb]; [|discriminate].
  destruct v3; cbn [in_strings negb]; try discriminate.
  case_bool_decide as Hsz; cbn [negb]; [|discriminate].
  destruct v4; cbn [strip_val bind]; try discriminate.
  destruct (is_empty (strip s4)) eqn:Hp; [discriminate|].
  destruct (1000 <? len (strip s4)) eqn:Hlen; [discriminate|].
  intros _. exists s, s0, s1, s2, s3, s4.
  split; [constructor; assumption|].
  repeat split; try assumption. lia.
Qed.

Lemma get_credit_cost_valid size :
  size ∈ VALID_SIZES -> exists c, get_credit_cost size = Some c /\ 1 <= c <= 4.
Proof.
  unfold VALID_SIZES. rewrite !elem_of_cons, elem_of_nil.
  intros [-> | [-> | [-> | []]]];
    [exists 1 | exists 3 | exists 4]; (split; [reflexivity | lia]).
Qed.

Lemma get_credit_cost_other size :
  size ∉ VALID_SIZES -> get_credit_cost size = None.
Proof.
  unfold VALID_SIZES. rewrite !elem_of_cons, elem_of_nil. intros H.
  unfold get_credit_cost, CREDIT_COSTS. cbn [list_to_map foldr uncurry].
  rewrite !lookup_insert_ne by (intros <-; tauto).
  apply lookup_empty.
Qed.

Lemma sample_fields_valid prompt :
  fields_valid (sample prompt) "user123" "Model A" "realistic" "vibrant" "1024x1024".
Proof.
  constructor; try reflexivity;
    unfold VALID_MODELS, VALID_STYLES, VALID_COLORS, VALID_SIZES;
    rewrite ?elem_of_cons; tauto.
Qed.

Lemma sample_prompt prompt : sample prompt !! "prompt" = Some (JStr prompt).
Proof. reflexivity. Qed.

Lemma sample_ok :
  validate_generation_request (sample "A beautiful sunset") = Ok Valid.
Proof. vm_compute. reflexivity. Qed.

(** C8, as stated, fails: a prompt of 1000 letters followed by a blank
    has length 1001 and is accepted, because the length is taken after
    [strip()]; and a prompt of 1000 blanks has length 1000 and is
    rejected. *)
Lemma C8_counterexample :
  len (repeat_char "x" 1000 +:+ " ") = 1001 /\
  validate_generation_request (sample (repeat_char "x" 1000 +:+ " ")) = Ok Valid /\
  len (repeat_char " " 1000) = 1000 /\
  validate_generation_request (sample (repeat_char " " 1000))
  = Ok (Invalid "Prompt cannot be empty").
Proof. vm_compute. repeat split; reflexivity. Qed.

(** C8 (amended): with every other field valid, a payload whose prompt
    has length 1000 once leading and trailing whitespace is stripped is
    accepted, and one whose stripped prompt has length 1001 is rejected;
    [get_credit_cost] is [None] outside the three sizes and an integer
    on each of them. *)
Theorem C8_prompt_boundary_and_cost :
  (forall data user_id model style color size prompt,
      fields_valid data user_id model style color size ->
      data !! "prompt" = Some (JStr prompt) ->
      (len (strip prompt) = 1000 ->
       validate_generation_request data = Ok Valid) /\
      (len (strip prompt) = 1001 ->
       validate_generation_request data
       = Ok (Invalid "Prompt must be less than 1000 characters"))) /\
  (forall size, size ∉ ["512x512"; "1024x1024"; "1024x1792"] ->
                get_credit_cost size = None) /\
  get_credit_cost "512x512" = Some 1 /\
  get_credit_cost "1024x1024" = Some 3 /\
  get_credit_cost "1024x1792" = Some 4.
Proof.
  split; [|split; [exact get_credit_cost_other | repeat split; reflexivity]].
  intros data user_id model style color size prompt Hf Hp.
  rewrite (validate_prompt _ _ _ _ _ _ _ Hf Hp). unfold prompt_verdict.
  split; intros Hlen.
  - destruct (strip prompt) eqn:Hs; [discriminate Hlen|].
    cbn [is_empty]. rewrite Hlen. reflexivity.
  - destruct (strip prompt) eqn:Hs; [discriminate Hlen|].
    cbn [is_empty]. rewrite Hlen. reflexivity.
Qed.

Lemma C8_witness :
  validate_generation_request (sample (repeat_char "x" 1000)) = Ok Valid /\
  validate_generation_request (sample (repeat_char "x" 1001))
  = Ok (Invalid "Prompt must be less than 1000 characters").
Proof.
  split.
  - apply (proj1 (proj1 C8_prompt_boundary_and_cost _ _ _ _ _ _ _
                    (sample_fields_valid _) (sample_prompt _))).
    vm_compute. reflexivity.
  - apply (proj2 (proj1 C8_prompt_boundary_and_cost _ _ _ _ _ _ _
                    (sample_fields_valid _) (sample_prompt _))).
    vm_compute. reflexivity.
Defined.

(** C9: whenever validation accepts a payload, its size is a string of
    the fixed list, the handler reads it as such, and [get_credit_cost]
    returns an integer for it, never [None]; hence the handler's
    comparison [user_credits < credit_cost] is between two integers and
    does not raise. *)
Theorem C9_accepted_size_has_cost data :
  validate_generation_request data = Ok Valid ->
  exists size cost,
    data !! "size" = Some (JStr size) /\
    size ∈ VALID_SIZES /\
    Main.item data "size" = Ok size /\
    get_credit_cost size = Some cost /\
    forall user_credits,
      lt_opt user_credits (get_credit_cost size) = Ok (user_credits <? cost).
Proof.
  intros H. apply validate_valid_inv in H.
  destruct H as (u & m & st & c & sz & p & Hf & _).
  destruct (get_credit_cost_valid sz (fv_size_valid _ _ _ _ _ _ Hf)) as (cost & Hc & _).
  exists sz, cost. split; [exact (fv_size _ _ _ _ _ _ Hf)|].
  split; [exact (fv_size_valid _ _ _ _ _ _ Hf)|].
  split; [unfold Main.item; rewrite (fv_size _ _ _ _ _ _ Hf); reflexivity|].
  split; [exact Hc|]. intros uc. rewrite Hc. reflexivity.
Qed.

Lemma C9_witness :
  exists size cost,
    sample "A beautiful sunset" !! "size" = Some (JStr size) /\
    size ∈ VALID_SIZES /\
    Main.item (sample "A beautiful sunset") "size" = Ok size /\
    get_credit_cost size = Some cost /\
    forall user_credits,
      lt_opt user_credits (get_credit_cost size) = Ok (user_credits <? cost).
Proof.
  apply (C9_accepted_size_has_cost (sample "A beautiful sunset")).
  vm_compute. reflexivity.
Defined.

End ValidatorFacts.

(** ** The credit ledger *)

Module LedgerFacts.
Import Py Firestore Transaction CreditService LedgerSpec.

(** [deduct_credits] on a transaction of the client library:
    [transaction.get] has returned a generator, reading [.exists] on it
    raises [AttributeError], and the function's own handler turns that
    into [False].  Nothing is read, nothing is buffered. *)
Lemma deduct_credits_eq w user_id amount rid t :
  deduct_credits w user_id amount rid t = (Ok false, t).
Proof. destruct t. reflexivity. Qed.

(** The body of a refund raises in the same way, whatever the store
    holds. *)
Lemma refund_transaction_eq w user_id amount rid t :
  refund_transaction w user_id amount rid t = (Raise AttributeError, t).
Proof. destruct t. reflexivity. Qed.

(** A transaction whose body raises: begin, the body, roll back. *)
Lemma transactional_raises {A} w (body : M Tx A) e s :
  (forall t, body t = (Raise e, t)) ->
  transactional w body s
  = (Raise (if fault w (calls s) || fault w (S (calls s)) then StoreError else e),
     advance s 0 0 (if fault w (calls s) then 1 else 2)).
Proof.
  intros Hbody. unfold transactional, MAX_ATTEMPTS. cbn [attempt].
  unfold rpc at 1. destruct (fault w (calls s)); [reflexivity|].
  rewrite Hbody. unfold rollback_and_raise, rpc. cbn [sys calls orb].
  destruct (fault w (S (calls s))); reflexivity.
Qed.

(** The transaction runner on a body that does not raise: when the first
    commit is aborted the body runs a second time and its writes are
    committed then (four calls: begin, commit, begin, commit); a commit
    that fails otherwise is rolled back and raised. *)
Example transactional_retries_on_aborted :
  let body := do tx_write (SetUser "bob" (account "bob" 1)) in ret true in
  let (r, s') := transactional contended body (boot empty) in
  r = Ok true /\ balance (db s') "bob" = 1 /\ calls s' = 4%nat.
Proof. vm_compute. repeat split; reflexivity. Qed.

(** [refund_credits]: the transaction begins, its body raises, it is
    rolled back, and the handler answers [False]. *)
Lemma refund_credits_eq w user_id amount rid s :
  refund_credits w user_id amount rid s
  = (Ok false, advance s 0 0 (if fault w (calls s) then 1 else 2)).
Proof.
  unfold refund_credits, catch. unfold bind at 1.
  rewrite (transactional_raises w _ AttributeError s)
    by (intros t; apply refund_transaction_eq).
  reflexivity.
Qed.

(** [create_user_with_credits], case by case: two separate writes. *)
Lemma create_user_with_credits_eq w user_id amount email s :
  create_user_with_credits w user_id amount email s =
  let seeded := put_user (db s) user_id (seeded_account w s user_id amount email) in
  if fault w (calls s) then (Ok false, advance s 2 0 1)
  else if fault w (S (calls s))
       then (Ok false, with_db (advance s 3 1 2) seeded)
       else (Ok true,
             with_db (advance s 3 1 2)
               (add_transaction seeded (grant_record w s user_id amount))).
Proof.
  unfold create_user_with_credits, catch, bind, write, bind, rpc, now, document,
    advance, with_db, add_transaction, put_user, grant_record, seeded_account.
  cbn.
  destruct (fault w (calls s)); [reflexivity|]. cbn.
  destruct (fault w (S (calls s))); reflexivity.
Qed.

(** A charge: the deduction reports failure, so the body raises and the
    transaction is rolled back. *)
Lemma charge_eq w user_id amount rid s :
  charge w user_id amount rid s
  = (Raise (if fault w (calls s) || fault w (S (calls s)) then StoreError
            else Exception "Failed to deduct credits"),
     advance s 0 0 (if fault w (calls s) then 1 else 2)).
Proof.
  unfold charge. apply transactional_raises.
  intros t. unfold bind. rewrite deduct_credits_eq. reflexivity.
Qed.

(** C1 (a defect of the code): [deduct_credits] never answers [True].
    On every account, amount and request id it returns [False] and
    leaves the transaction as it found it, with nothing read and nothing
    buffered; so it does on the account ["alice"] holding 10 credits,
    asked for 3. *)
Theorem C1_deduct_credits_always_false :
  (forall w user_id amount rid t,
      deduct_credits w user_id amount rid t = (Ok false, t)) /\
  users alice10 !! "alice" = Some (account "alice" 10) /\
  credits_of (account "alice" 10) = 10 /\
  deduct_credits quiet "alice" 3 "req1" (tx0 alice10) = (Ok false, tx0 alice10).
Proof.
  split; [exact deduct_credits_eq|]. repeat split.
Qed.

(** C10 (the same defect): an amount below the balance that is zero or
    negative is refused like every other one; on ["alice"] holding 10
    credits, [deduct_credits] answers [False] for the amounts [-5] and
    [0] and buffers nothing. *)
Theorem C10_nonpositive_amounts_refused :
  users alice10 !! "alice" = Some (account "alice" 10) /\
  deduct_credits quiet "alice" (-5) "req1" (tx0 alice10) = (Ok false, tx0 alice10) /\
  deduct_credits quiet "alice" 0 "req1" (tx0 alice10) = (Ok false, tx0 alice10) /\
  writes (snd (deduct_credits quiet "alice" (-5) "req1" (tx0 alice10))) = [].
Proof. repeat split. Qed.

Lemma balance_put d user_id doc r :
  balance (add_transaction (put_user d user_id doc) r) user_id = credits_of doc.
Proof. unfold balance. cbn. rewrite lookup_insert_eq. reflexivity. Qed.

Lemma balance_put_ne d user_id doc r u :
  u <> user_id ->
  balance (add_transaction (put_user d user_id doc) r) u = balance d u.
Proof. intros H. unfold balance. cbn. rewrite lookup_insert_ne by congruence. reflexivity. Qed.

(** C3 (the same defect): [refund_credits] never answers [True] and
    never writes.  Whatever the store holds and whether or not a remote
    call fails, it returns [False] with the store unchanged; so it does
    for a refund of 3 to ["bob"] and to ["alice"] when no call fails: no
    account is created, no balance raised, no record appended. *)
Theorem C3_refund_credits_always_false :
  (forall w user_id amount rid s,
      exists s', refund_credits w user_id amount rid s = (Ok false, s') /\
                 db s' = db s) /\
  (forall k, fault quiet k = false) /\
  fst (refund_credits quiet "bob" 3 "req1" (boot alice10)) = Ok false /\
  db (snd (refund_credits quiet "bob" 3 "req1" (boot alice10))) = alice10 /\
  fst (refund_credits quiet "alice" 3 "req1" (boot alice10)) = Ok false /\
  balance (db (snd (refund_credits quiet "alice" 3 "req1" (boot alice10)))) "alice"
  = 10.
Proof.
  split.
  { intros w user_id amount rid s. rewrite refund_credits_eq.
    eexists. split; reflexivity. }
  split; [reflexivity|]. rewrite !refund_credits_eq. repeat split.
Qed.

(** *** The ledger equation *)

Lemma total_add d r u ty :
  total (add_transaction d r) u ty
  = total d u ty + (if is_record u ty r then default 0 (TransactionDoc.credits r) else 0).
Proof.
  unfold total, add_transaction. cbn [credit_transactions].
  induction (credit_transactions d) as [|x l IH]; cbn.
  - destruct (is_record u ty r); lia.
  - rewrite IH. destruct (is_record u ty x); lia.
Qed.

Lemma total_put d u doc u' ty : total (put_user d u doc) u' ty = total d u' ty.
Proof. reflexivity. Qed.

Lemma is_record_spec r u ty a rid u' ty' :
  records r u ty a rid ->
  is_record u' ty' r = bool_decide (u = u') && bool_decide (ty = ty').
Proof.
  intros [Hu Ht _ _ _]. unfold is_record. rewrite Hu, Ht. f_equal.
  - destruct (String.eqb_spec u u'); symmetry;
      [apply bool_decide_eq_true_2 | apply bool_decide_eq_false_2]; assumption.
  - destruct ty, ty'; reflexivity.
Qed.

Lemma ledger_sum_add d r u ty a rid doc u' :
  records r u ty a rid ->
  ledger_sum (add_transaction (put_user d u doc) r) u'
  = ledger_sum d u' + (if bool_decide (u = u') then delta ty a else 0).
Proof.
  intros Hr. unfold ledger_sum. rewrite !total_add, !total_put.
  rewrite !(is_record_spec _ _ _ _ _ _ _ Hr), (rec_credits _ _ _ _ _ Hr).
  unfold delta.
  destruct ty; repeat case_bool_decide; cbn [andb default from_option id];
    try congruence; lia.
Qed.

(** One ledger write keeps the equation: the account's new balance differs
    from the old one by what the added record stands for. *)
Lemma balanced_step d r u ty a rid doc :
  balanced d ->
  records r u ty a rid ->
  credits_of doc = balance d u + delta ty a ->
  balanced (add_transaction (put_user d u doc) r).
Proof.
  intros Hb Hr Hc u'. rewrite (ledger_sum_add _ _ _ _ _ _ _ _ Hr).
  case_bool_decide as Hu.
  - subst u'. rewrite balance_put, Hc, Hb. reflexivity.
  - rewrite balance_put_ne by congruence. rewrite Hb. lia.
Qed.

Lemma grant_record_records w s user_id amount :
  records (grant_record w s user_id amount) user_id CREDIT amount "".
Proof. constructor; try reflexivity. congruence. Qed.

Lemma step_balanced w op s :
  match op with
  | Create u a e =>
      users (db s) !! u = None /\
      fst (create_user_with_credits w u a e s) = Ok true
  | _ => True
  end ->
  balanced (db s) -> balanced (db (step w op s)).
Proof.
  intros Hop Hb. destruct op as [u a e | u a r | u a r]; cbn [step].
  - destruct Hop as [Hnone Hok]. revert Hok.
    rewrite create_user_with_credits_eq. cbv zeta.
    destruct (fault w (calls s)); [discriminate|].
    destruct (fault w (S (calls s))); [discriminate|]. intros _.
    cbn [snd db with_db].
    eapply balanced_step; [exact Hb | apply grant_record_records |].
    unfold balance. rewrite Hnone. reflexivity.
  - rewrite charge_eq. exact Hb.
  - rewrite refund_credits_eq. exact Hb.
Qed.

Lemma run_balanced w ops s :
  creates_fresh w ops s -> balanced (db s) -> balanced (db (run w ops s)).
Proof.
  revert s. induction ops as [|op rest IH]; intros s Hf Hb; [exact Hb|].
  destruct Hf as [Hop Hrest]. cbn [run fold_left].
  apply IH; [exact Hrest|]. apply step_balanced; assumption.
Qed.

Lemma empty_balanced : balanced empty.
Proof. intros u. reflexivity. Qed.

(** C2, as stated, fails: [create_user_with_credits] overwrites the
    balance of an existing account while adding a second grant record. *)
Lemma C2_counterexample :
  let ops := [Create "alice" 50 None; Create "alice" 50 None] in
  let d := db (run quiet ops (boot empty)) in
  balance d "alice" = 50 /\
  total d "alice" CREDIT + total d "alice" REFUND - total d "alice" DEDUCTION = 100.
Proof. vm_compute. split; reflexivity. Qed.

(** C2 (amended): starting from an empty store, after every finite
    sequence of ledger operations in which [create_user_with_credits] is
    only applied to a user that has no account at that moment, and
    succeeds, every user's stored balance equals the sum of the user's
    credit records plus the sum of the refund records minus the sum of
    the deduction records; this holds whatever remote calls fail during
    charges and refunds. *)
Theorem C2_ledger_equation w ops user_id :
  creates_fresh w ops (boot empty) ->
  let d := db (run w ops (boot empty)) in
  balance d user_id
  = total d user_id CREDIT + total d user_id REFUND - total d user_id DEDUCTION.
Proof.
  intros Hf. exact (run_balanced w ops (boot empty) Hf empty_balanced user_id).
Qed.

Lemma sample_ops_fresh : creates_fresh quiet sample_ops (boot empty).
Proof. vm_compute. repeat split. Qed.

Lemma C2_witness :
  let d := db (run quiet sample_ops (boot empty)) in
  balance d "alice"
  = total d "alice" CREDIT + total d "alice" REFUND - total d "alice" DEDUCTION.
Proof. exact (C2_ledger_equation quiet sample_ops "alice" sample_ops_fresh). Defined.

Example sample_ops_balance :
  balance (db (run quiet sample_ops (boot empty))) "alice" = 10 /\
  balance (db (run quiet sample_ops (boot empty))) "bob" = 0.
Proof. vm_compute. split; reflexivity. Qed.

(** *** Balances stay non-negative *)

Lemma nonneg_put d u doc c :
  nonneg d -> UserDoc.credits doc = Some c -> 0 <= c -> nonneg (put_user d u doc).
Proof.
  intros Hd Hc Hle u' doc'. cbn. rewrite lookup_insert.
  case_decide; [intros [= <-]; eauto | apply Hd].
Qed.

Lemma nonneg_add d r : nonneg d -> nonneg (add_transaction d r).
Proof. intros Hd. exact Hd. Qed.

Lemma nonneg_credits_of d u doc : nonneg d -> users d !! u = Some doc -> 0 <= credits_of doc.
Proof.
  intros Hd Hu. destruct (Hd _ _ Hu) as (c & Hc & Hle).
  unfold credits_of. rewrite Hc. exact Hle.
Qed.

Lemma step_nonneg w op s :
  0 < amount_of op -> nonneg (db s) -> nonneg (db (step w op s)).
Proof.
  intros Ha Hd. destruct op as [u a e | u a r | u a r]; cbn [step amount_of] in *.
  - rewrite create_user_with_credits_eq. cbv zeta.
    destruct (fault w (calls s)); [exact Hd|].
    destruct (fault w (S (calls s))); cbn [snd db with_db];
      [|apply nonneg_add]; (eapply nonneg_put; [exact Hd | reflexivity | lia]).
  - rewrite charge_eq. exact Hd.
  - rewrite refund_credits_eq. exact Hd.
Qed.

Lemma run_nonneg w ops s :
  Forall (fun op => 0 < amount_of op) ops ->
  nonneg (db s) -> nonneg (db (run w ops s)).
Proof.
  revert s. induction ops as [|op rest IH]; intros s Hp Hd; [exact Hd|].
  apply Forall_cons in Hp. destruct Hp as [Hop Hrest]. cbn [run fold_left].
  apply IH; [exact Hrest|]. apply step_nonneg; assumption.
Qed.

(** C7: from a store whose balances are non-negative integers (the empty
    store among them), along every sequence of ledger operations with
    positive amounts, and whatever remote calls fail, every stored
    [credits] value is a non-negative integer after each operation; no
    charge drives a balance below zero. *)
Theorem C7_balance_never_negative w d0 ops k user_id :
  nonneg d0 ->
  Forall (fun op => 0 < amount_of op) ops ->
  let d := db (run w (firstn k ops) (boot d0)) in
  0 <= balance d user_id /\
  forall doc, users d !! user_id = Some doc ->
              exists c, UserDoc.credits doc = Some c /\ 0 <= c.
Proof.
  intros H0 Hp d.
  assert (Hd : nonneg d).
  { apply run_nonneg; [|exact H0]. apply Forall_take. exact Hp. }
  split; [|apply Hd].
  unfold balance. destruct (users d !! user_id) as [doc|] eqn:Eu; [|lia].
  eapply nonneg_credits_of; eassumption.
Qed.

Lemma empty_nonneg : nonneg empty.
Proof. intros u doc H. cbn in H. rewrite lookup_empty in H. discriminate. Qed.

Lemma sample_ops_positive : Forall (fun op => 0 < amount_of op) sample_ops.
Proof. repeat constructor. Qed.

Lemma C7_witness :
  0 <= balance (db (run quiet (firstn 5 sample_ops) (boot empty))) "alice".
Proof.
  exact (proj1 (C7_balance_never_negative quiet empty sample_ops 5 "alice"
                  empty_nonneg sample_ops_positive)).
Defined.

End LedgerFacts.

(** ** The request orchestrator *)

Module OrchestratorFacts.
Import Py Firestore Transaction CreditService RequestValidator Request Main.
Import ValidatorSpec LedgerSpec OrchestratorSpec ValidatorFacts LedgerFacts.

Lemma get_user_credits_eq w user_id s :
  get_user_credits w user_id s
  = (Ok (if fault w (calls s) then 0 else balance (db s) user_id),
     advance s 0 0 1).
Proof.
  unfold get_user_credits, catch, bind, get_user, bind, rpc, read, balance, advance.
  destruct (fault w (calls s)); [reflexivity|]. cbn.
  destruct (users (db s) !! user_id); reflexivity.
Qed.

(** The charge of [main.py]: [deduct_credits] reports failure, the body
    raises, the transaction is rolled back. *)
Lemma create_request_transaction_eq w user_id cost rid gr s :
  transactional w (create_request_transaction w user_id cost rid gr) s
  = (Raise (if fault w (calls s) || fault w (S (calls s)) then StoreError
            else Exception "Failed to deduct credits"),
     advance s 0 0 (if fault w (calls s) then 1 else 2)).
Proof.
  apply transactional_raises.
  intros t. unfold create_request_transaction, bind.
  rewrite deduct_credits_eq. reflexivity.
Qed.

Lemma item_str data key v : data !! key = Some (JStr v) -> item data key = Ok v.
Proof. intros H. unfold item. rewrite H. reflexivity. Qed.


(** Scenario 1 of the design document fares the same: with a gateway
    that succeeds, the answer is the generic 500 and nothing is charged. *)
Example scenario_success :
  let (r, s') := createGenerationRequest lucky (post "A beautiful sunset")
                   (boot user123) in
  r = Ok {| status := 500; body := Error "Internal server error" |}
  /\ db s' = user123.
Proof. vm_compute. repeat split; reflexivity. Qed.

(** Scenario 2 of the design document, evaluated. *)
Example scenario_insufficient :
  let poor := put_user empty "user123" (account "user123" 2) in
  let (r, s') := createGenerationRequest lucky (post "A beautiful sunset")
                   (boot poor) in
  r = Ok {| status := 402;
            body := InsufficientCredits "Insufficient credits" 3 2 |}
  /\ db s' = poor.
Proof. vm_compute. repeat split; reflexivity. Qed.

End OrchestratorFacts.

(** ** Floating-point facts: quotients of integers of comparable size do
    not overflow *)

Module FloatFacts.
Import Py FloatSpec.

(** The number of binary digits, as the standard library counts it. *)
Lemma digits2_size p : digits2_pos p = Pos.size p.
Proof. induction p; simpl; congruence. Qed.

Lemma Zdigits2_nonneg m : 0 <= Zdigits2 m.
Proof. destruct m; simpl; lia. Qed.

Lemma Zdigits2_gt m : 0 <= m -> m < 2 ^ Zdigits2 m.
Proof.
  intros H. destruct m as [|p|p]; [reflexivity| |lia].
  cbn [Zdigits2]. rewrite digits2_size.
  pose proof (Pos.size_gt p) as Hs.
  rewrite <- Pos2Z.inj_pow. lia.
Qed.

Lemma Zdigits2_le m k : 0 <= k -> 0 <= m < 2 ^ k -> Zdigits2 m <= k.
Proof.
  intros Hk [H0 H]. destruct m as [|p|p]; [simpl; lia| |lia].
  cbn [Zdigits2]. rewrite digits2_size.
  pose proof (Pos.size_le p) as Hs.
  assert (H2 : 2 ^ Z.pos (Pos.size p) <= 2 * Z.pos p).
  { rewrite <- Pos2Z.inj_pow. change (2 * Z.pos p) with (Z.pos p~0). lia. }
  destruct (Z_lt_le_dec k (Z.pos (Pos.size p))) as [Hlt|]; [|lia].
  exfalso.
  assert (2 ^ (k + 1) <= 2 ^ Z.pos (Pos.size p)) by (apply Z.pow_le_mono_r; lia).
  rewrite Z.pow_add_r in H1 by lia. lia.
Qed.

Lemma Zdigits2_mono m m' : 0 <= m <= m' -> Zdigits2 m <= Zdigits2 m'.
Proof.
  intros [H0 H]. apply Zdigits2_le; [apply Zdigits2_nonneg|].
  split; [exact H0|]. pose proof (Zdigits2_gt m'). lia.
Qed.

Lemma Zdigits2_succ m : 0 <= m -> Zdigits2 (m + 1) <= Zdigits2 m + 1.
Proof.
  intros H0. pose proof (Zdigits2_nonneg m). apply Zdigits2_le; [lia|].
  split; [lia|]. pose proof (Zdigits2_gt m H0).
  rewrite Z.pow_add_r by lia. lia.
Qed.

(** One halving step. *)
Lemma shr_1_spec mrs :
  0 <= shr_m mrs ->
  0 <= shr_m (shr_1 mrs) /\
  Zdigits2 (shr_m (shr_1 mrs)) <= Z.max 0 (Zdigits2 (shr_m mrs) - 1).
Proof.
  destruct mrs as [m r s]. cbn [shr_m]. intros H.
  destruct m as [|[p|p|]|p]; cbn [shr_1 shr_m Zdigits2 digits2_pos]; try lia.
Qed.

Lemma iter_pos_shr p : forall mrs d,
  0 <= shr_m mrs -> Zdigits2 (shr_m mrs) <= Z.max 0 d ->
  0 <= shr_m (SpecFloat.iter_pos shr_1 p mrs) /\
  Zdigits2 (shr_m (SpecFloat.iter_pos shr_1 p mrs)) <= Z.max 0 (d - Z.pos p).
Proof.
  induction p as [p IH|p IH|]; intros mrs d H0 Hd; cbn [SpecFloat.iter_pos].
  - destruct (shr_1_spec mrs H0) as [H1 H1'].
    destruct (IH (shr_1 mrs) (d - 1) H1 ltac:(lia)) as [H2 H2'].
    destruct (IH _ (d - 1 - Z.pos p) H2 H2') as [H3 H3'].
    split; [exact H3|]. lia.
  - destruct (IH mrs d H0 Hd) as [H2 H2'].
    destruct (IH _ (d - Z.pos p) H2 H2') as [H3 H3'].
    split; [exact H3|]. lia.
  - destruct (shr_1_spec mrs H0) as [H1 H1']. split; [exact H1|]. lia.
Qed.

Lemma shr_record_of_loc_m m l : shr_m (shr_record_of_loc m l) = m.
Proof. destruct l as [|[]]; reflexivity. Qed.

(** Shifting to the format's exponent. *)
Lemma shr_fexp_spec m e l B :
  0 <= m -> Zdigits2 m + e <= B -> e <= 971 -> B <= 1024 ->
  let '(mrs, e') := shr_fexp prec emax m e l in
  0 <= shr_m mrs /\ e' <= 971 /\ Zdigits2 (shr_m mrs) + e' <= Z.max B e'.
Proof.
  intros H0 HB He HB'. unfold shr_fexp, shr.
  set (n := fexp prec emax (Zdigits2 m + e) - e).
  assert (Hf : fexp prec emax (Zdigits2 m + e) <= 971).
  { unfold fexp, emin, prec, emax. lia. }
  destruct n as [|p|p] eqn:En.
  - rewrite shr_record_of_loc_m. lia.
  - destruct (iter_pos_shr p (shr_record_of_loc m l) (Zdigits2 m)) as [H1 H2].
    + rewrite shr_record_of_loc_m. exact H0.
    + rewrite shr_record_of_loc_m. lia.
    + split; [exact H1|]. lia.
  - rewrite shr_record_of_loc_m. lia.
Qed.

Lemma round_nearest_even_bounds m l :
  m <= round_nearest_even m l <= m + 1.
Proof. destruct l as [|[]]; cbn; try lia. destruct (Z.even m); lia. Qed.

Lemma binary_round_aux_finite sx mx ex lx :
  0 <= mx -> Zdigits2 mx + ex <= 1023 -> ex <= 971 ->
  is_infinity (binary_round_aux prec emax sx mx ex lx) = false.
Proof.
  intros H0 HB He. unfold binary_round_aux.
  pose proof (shr_fexp_spec mx ex lx 1023 H0 HB He ltac:(lia)) as H1.
  destruct (shr_fexp prec emax mx ex lx) as [mrs' e1].
  destruct H1 as (H1 & H1e & H1d).
  pose proof (round_nearest_even_bounds (shr_m mrs') (loc_of_shr_record mrs')) as Hr.
  set (m1 := round_nearest_even (shr_m mrs') (loc_of_shr_record mrs')) in *.
  assert (Hd1 : Zdigits2 m1 + e1 <= 1024).
  { pose proof (Zdigits2_mono m1 (shr_m mrs' + 1) ltac:(lia)).
    pose proof (Zdigits2_succ (shr_m mrs') H1). lia. }
  pose proof (shr_fexp_spec m1 e1 loc_Exact 1024 ltac:(lia) Hd1 H1e ltac:(lia)) as H2.
  destruct (shr_fexp prec emax m1 e1 loc_Exact) as [mrs'' e2].
  destruct H2 as (H2 & H2e & _).
  destruct (shr_m mrs''); try reflexivity.
  replace (e2 <=? emax - prec) with true; [reflexivity|].
  symmetry. apply Z.leb_le. unfold emax, prec. lia.
Qed.

(** The integer quotient that the division rounds: it is non-negative,
    and as small as the ratio of the operands says. *)
Lemma SFdiv_core_bounds ma mb K :
  0 <= K -> Z.pos ma < 2 ^ K * Z.pos mb ->
  let '(q, e', _) := SFdiv_core_binary prec emax (Z.pos ma) 0 (Z.pos mb) 0 in
  0 <= q /\ Zdigits2 q + e' <= K /\ e' <= 971.
Proof.
  intros HK Hlt. unfold SFdiv_core_binary.
  set (e' := Z.min (fexp prec emax (Zdigits2 (Z.pos ma) + 0 - (Zdigits2 (Z.pos mb) + 0)))
                   (0 - 0)).
  assert (He : e' <= 0) by (unfold e'; lia).
  set (s := 0 - 0 - e').
  set (m' := match s with
             | Z0 => Z.pos ma
             | Z.pos _ => Z.shiftl (Z.pos ma) s
             | Z.neg _ => 0
             end).
  assert (Hm : m' = Z.pos ma * 2 ^ s).
  { unfold m'. destruct s as [|p|p] eqn:Es; [lia | | lia].
    rewrite Z.shiftl_mul_pow2 by lia. reflexivity. }
  pose proof (Z_div_mod m' (Z.pos mb) ltac:(lia)) as Hdiv.
  destruct (Z.div_eucl m' (Z.pos mb)) as [q r]. destruct Hdiv as [Hq Hr].
  assert (Hs : 0 <= s) by (unfold s; lia).
  assert (Hp : 0 < 2 ^ s) by (apply Z.pow_pos_nonneg; lia).
  assert (Hq0 : 0 <= q) by nia.
  assert (Hqb : q < 2 ^ (K + s)).
  { rewrite Z.pow_add_r by lia.
    assert (q * Z.pos mb < 2 ^ K * 2 ^ s * Z.pos mb) by nia. nia. }
  split; [exact Hq0|]. split; [|lia].
  pose proof (Zdigits2_le q (K + s) ltac:(lia) ltac:(lia)). unfold s in *. lia.
Qed.

(** [a / b] has a value whenever [b] is not zero and the quotient is
    within the range of floats. *)
Lemma truediv_defined a b :
  b <> 0 -> Z.abs a < 2 ^ 1023 * Z.abs b -> exists q, truediv a b = Ok q.
Proof.
  intros Hb Hlt. unfold truediv.
  destruct b as [|mb|mb]; [congruence| |];
    (destruct a as [|ma|ma]; [eexists; reflexivity| |]);
    cbn [exact SFdiv];
    pose proof (SFdiv_core_bounds ma mb 1023 ltac:(lia) ltac:(lia)) as Hc;
    destruct (SFdiv_core_binary prec emax (Z.pos ma) 0 (Z.pos mb) 0)
      as [[q e'] l];
    destruct Hc as (H0 & Hd & He);
    match goal with
    | |- exists _, match binary_round_aux _ _ ?sx _ _ _ with _ => _ end = _ =>
        pose proof (binary_round_aux_finite sx q e' l H0 Hd He) as Hfin;
        destruct (binary_round_aux prec emax sx q e' l);
        try discriminate Hfin; eexists; reflexivity
    end.
Qed.

Lemma percent_defined a b :
  b <> 0 -> Z.abs a < 2 ^ 1023 * Z.abs b ->
  exists q, truediv a b = Ok q /\ ReportService.percent a b = Ok (mul_int q 100).
Proof.
  intros Hb Hlt. destruct (truediv_defined a b Hb Hlt) as [q Hq].
  exists q. split; [exact Hq|]. unfold ReportService.percent. rewrite Hq.
  reflexivity.
Qed.

End FloatFacts.

(** ** The report engine *)

Module ReportFacts.
Import Py Firestore ReportDoc ReportService FloatSpec ReportSpec FloatFacts.

Lemma pow_1023 : 2 ^ 1023 = 8388608 * 2 ^ 1000.
Proof. change 1023 with (23 + 1000). rewrite Z.pow_add_r by lia. reflexivity. Qed.

Lemma bounded_ratio a b : bounded a -> 0 < b -> Z.abs a < 2 ^ 1023 * Z.abs b.
Proof.
  unfold bounded. intros Ha Hb. rewrite pow_1023.
  assert (0 < 2 ^ 1000) by (apply Z.pow_pos_nonneg; lia). nia.
Qed.

Lemma bounded_change a b : bounded a -> 0 < b -> Z.abs (a - b) < 2 ^ 1023 * Z.abs b.
Proof.
  unfold bounded. intros Ha Hb. rewrite pow_1023.
  assert (0 < 2 ^ 1000) by (apply Z.pow_pos_nonneg; lia). nia.
Qed.

Lemma failure_check_spec total failed :
  bounded failed ->
  (total <= 0 /\ failure_check total failed = Ok []) \/
  (0 < total /\ exists rate,
      percent failed total = Ok rate /\
      failure_check total failed
      = Ok (if gt_int rate 10 then [failure_flag rate] else [])).
Proof.
  intros Hb. unfold failure_check.
  destruct (0 <? total) eqn:Ht; [right | left].
  - apply Z.ltb_lt in Ht. split; [exact Ht|].
    destruct (percent_defined failed total ltac:(lia) (bounded_ratio _ _ Hb Ht))
      as (q & _ & Hq).
    exists (mul_int q 100). split; [exact Hq|]. rewrite Hq. cbn [Py.bind].
    destruct (gt_int (mul_int q 100) 10); reflexivity.
  - apply Z.ltb_ge in Ht. split; [exact Ht | reflexivity].
Qed.

Lemma volume_check_spec total prev_total :
  bounded total ->
  exists found,
    volume_check total prev_total = Ok found /\
    forall a, In a found -> exists d sev c p, a = request_volume_spike d sev c p.
Proof.
  intros Hb. unfold volume_check.
  destruct (0 <? prev_total) eqn:Hp.
  - apply Z.ltb_lt in Hp.
    destruct (percent_defined (total - prev_total) prev_total ltac:(lia)
                (bounded_change _ _ Hb Hp)) as (q & _ & Hq).
    rewrite Hq. cbn [Py.bind].
    destruct (gt_int (fabs (mul_int q 100)) 50); eexists; (split; [reflexivity|]).
    + intros a [<- | []]. eauto.
    + intros a [].
  - exists []. split; [reflexivity|]. intros a [].
Qed.

Lemma model_check_spec total model count :
  bounded count ->
  (total <= 0 /\ model_check total (model, count) = Ok []) \/
  (0 < total /\ exists pct,
      percent count total = Ok pct /\
      model_check total (model, count)
      = Ok (if gt_int pct 80 then [imbalance_flag model pct] else [])).
Proof.
  intros Hb. unfold model_check.
  destruct (0 <? total) eqn:Ht; [right | left].
  - apply Z.ltb_lt in Ht. split; [exact Ht|].
    destruct (percent_defined count total ltac:(lia) (bounded_ratio _ _ Hb Ht))
      as (q & _ & Hq).
    exists (mul_int q 100). split; [exact Hq|]. rewrite Hq. cbn [Py.bind].
    destruct (gt_int (mul_int q 100) 80); reflexivity.
  - apply Z.ltb_ge in Ht. split; [exact Ht | reflexivity].
Qed.

(** The flags of the loop over the models: exactly the models whose
    share is above 80. *)
Lemma collect_models total by_model a :
  Forall (fun entry => bounded (snd entry)) by_model ->
  In a (collect (map (model_check total) by_model)) <->
  exists model count pct,
    In (model, count) by_model /\ 0 < total /\
    percent count total = Ok pct /\ gt_int pct 80 = true /\
    a = imbalance_flag model pct.
Proof.
  induction by_model as [|[m c] rest IH]; intros Hb.
  - cbn. split; [intros [] | intros (? & ? & ? & [] & _)].
  - apply Forall_cons in Hb. destruct Hb as [Hc Hrest]. specialize (IH Hrest).
    cbn [map collect].
    destruct (model_check_spec total m c Hc) as [[Ht ->] | (Ht & pct & Hp & ->)].
    + cbn [app]. rewrite IH. split.
      * intros (m' & c' & p' & Hin & H). exists m', c', p'. split; [right; exact Hin | exact H].
      * intros (m' & c' & p' & Hin & Ht' & _). lia.
    + rewrite in_app_iff, IH. split.
      * intros [Hin | (m' & c' & p' & Hin & H)].
        -- destruct (gt_int pct 80) eqn:Hg; [|destruct Hin].
           destruct Hin as [<- | []]. exists m, c, pct.
           split; [left; reflexivity|]. auto.
        -- exists m', c', p'. split; [right; exact Hin | exact H].
      * intros (m' & c' & p' & [[= <- <-] | Hin] & Ht' & Hp' & Hg & ->).
        -- left. rewrite Hp in Hp'. injection Hp' as <-. rewrite Hg. left. reflexivity.
        -- right. exists m', c', p'. auto.
Qed.

Lemma detect_anomalies_eq w total failed by_model start_date s :
  _detect_anomalies w total failed by_model start_date s
  = (Ok (if fault w (calls s) then []
         else compare (previous_week start_date (db s)) total failed by_model),
     LedgerSpec.advance s 0 0 1).
Proof.
  unfold _detect_anomalies, catch, bind, rpc, read, ret, LedgerSpec.advance.
  destruct (fault w (calls s)); reflexivity.
Qed.

(** C5: let the lookup of the previous week's report go through, on
    counts within the range of floats.  A [high_failure_rate] anomaly,
    with severity [high] when the rate is above 20 and [medium]
    otherwise, is emitted whenever [total > 0] and
    [failed / total * 100 > 10], both when a report whose week starts
    seven days earlier exists and when none does, and it is emitted in
    no other case.  A [model_imbalance] anomaly is emitted only when such
    a report exists, and then for exactly the models with
    [count / total * 100 > 80], with severity [low]; a
    [request_volume_spike] anomaly is emitted only when such a report
    exists. *)
Theorem C5_detect_anomalies w total failed by_model start_date s :
  fault w (calls s) = false ->
  bounded total -> bounded failed ->
  Forall (fun entry => bounded (snd entry)) by_model ->
  let previous :=
    List.find (fun r => weekStartDate r =? start_date - 7 * day)
              (weekly_reports (db s)) in
  exists found s',
    _detect_anomalies w total failed by_model start_date s = (Ok found, s') /\
    db s' = db s /\
    (forall rate,
        0 < total -> percent failed total = Ok rate -> gt_int rate 10 = true ->
        In (high_failure_rate ("Failure rate is " +:+ format_1f rate +:+ "%")
              (if gt_int rate 20 then "high" else "medium") rate) found) /\
    (forall d sev rate,
        In (high_failure_rate d sev rate) found ->
        0 < total /\ percent failed total = Ok rate /\ gt_int rate 10 = true /\
        sev = (if gt_int rate 20 then "high" else "medium")) /\
    (forall d sev model pct,
        In (model_imbalance d sev model pct) found ->
        is_Some previous /\ sev = "low" /\
        exists count, In (model, count) by_model /\ 0 < total /\
                      percent count total = Ok pct /\ gt_int pct 80 = true) /\
    (is_Some previous ->
     forall model count pct,
       In (model, count) by_model -> 0 < total ->
       percent count total = Ok pct -> gt_int pct 80 = true ->
       In (model_imbalance
             (model +:+ " accounts for " +:+ format_1f pct +:+ "% of requests")
             "low" model pct) found) /\
    (forall d sev current prior,
        In (request_volume_spike d sev current prior) found -> is_Some previous).
Proof.
  intros Hf Ht Hfl Hm previous.
  rewrite detect_anomalies_eq, Hf. eexists _, _. split; [reflexivity|].
  split; [reflexivity|].
  change (List.find _ (weekly_reports (db s))) with (previous_week start_date (db s))
    in previous.
  fold previous. unfold compare.
  assert (Hfail : forall a,
             In a (match failure_check total failed with
                   | Ok l => l
                   | Raise _ => []
                   end) <->
             exists rate, 0 < total /\ percent failed total = Ok rate /\
                          gt_int rate 10 = true /\ a = failure_flag rate).
  { intros a.
    destruct (failure_check_spec total failed Hfl) as [[H0 ->] | (H0 & rate & Hp & ->)].
    - split; [intros [] | intros (? & ? & _); lia].
    - split.
      + destruct (gt_int rate 10) eqn:Hg; [|intros []].
        intros [<- | []]. exists rate. auto.
      + intros (rate' & _ & Hp' & Hg & ->). rewrite Hp in Hp'. injection Hp' as <-.
        rewrite Hg. left. reflexivity. }
  destruct previous as [report|].
  - destruct (volume_check_spec total (default 0 (totalRequests report)) Ht)
      as (vol & Hv & Hvol).
    rewrite Hv. cbn [collect].
    destruct (failure_check total failed) as [fl|] eqn:Efc.
    2:{ destruct (failure_check_spec total failed Hfl) as [[_ H] | (_ & ? & _ & H)];
        rewrite H in Efc; discriminate. }
    pose proof (collect_models total by_model) as Hmod.
    split; [|split; [|split; [|split]]].
    + intros rate H0 Hp Hg. rewrite !in_app_iff. right. left.
      apply Hfail. exists rate. auto.
    + intros d sev rate. rewrite !in_app_iff. intros [Hin | [Hin | Hin]].
      * apply Hvol in Hin. destruct Hin as (? & ? & ? & ? & [=]).
      * apply Hfail in Hin. destruct Hin as (r & H0 & Hp & Hg & [= -> -> ->]). auto.
      * apply (Hmod _ Hm) in Hin. destruct Hin as (? & ? & ? & _ & _ & _ & _ & [=]).
    + intros d sev model pct. rewrite !in_app_iff. intros [Hin | [Hin | Hin]].
      * apply Hvol in Hin. destruct Hin as (? & ? & ? & ? & [=]).
      * apply Hfail in Hin. destruct Hin as (? & _ & _ & _ & [=]).
      * apply (Hmod _ Hm) in Hin.
        destruct Hin as (m & c & p & Hin & H0 & Hp & Hg & [= -> -> -> ->]).
        split; [eexists; reflexivity|]. split; [reflexivity|]. eauto.
    + intros _ model count pct Hin H0 Hp Hg. rewrite !in_app_iff. right. right.
      apply (Hmod _ Hm). exists model, count, pct. auto.
    + intros. eexists. reflexivity.
  - cbn [collect].
    destruct (failure_check total failed) as [fl|] eqn:Efc.
    2:{ destruct (failure_check_spec total failed Hfl) as [[_ H] | (_ & ? & _ & H)];
        rewrite H in Efc; discriminate. }
    rewrite app_nil_r.
    split; [|split; [|split; [|split]]].
    + intros rate H0 Hp Hg. apply Hfail. exists rate. auto.
    + intros d sev rate Hin. apply Hfail in Hin.
      destruct Hin as (r & H0 & Hp & Hg & [= -> -> ->]). auto.
    + intros d sev model pct Hin. apply Hfail in Hin.
      destruct Hin as (? & _ & _ & _ & [=]).
    + intros [? [=]].
    + intros d sev c p Hin. apply Hfail in Hin.
      destruct Hin as (? & _ & _ & _ & [=]).
Qed.

Lemma bounded_small n : Z.abs n < 1000 -> bounded n.
Proof.
  unfold bounded. intros H.
  assert (1000 <= 2 ^ 1000) by (vm_compute; discriminate). lia.
Qed.

Lemma C5_witness :
  exists found s',
    _detect_anomalies LedgerSpec.quiet 3 2 [("Model A", 3)] week (boot with_report)
    = (Ok found, s') /\
    In (high_failure_rate "Failure rate is 66.7%" "high"
          (S754_finite false 4691249611844266 (-46))) found.
Proof.
  destruct (C5_detect_anomalies LedgerSpec.quiet 3 2 [("Model A", 3)] week
              (boot with_report) eq_refl
              (bounded_small 3 ltac:(cbn; lia)) (bounded_small 2 ltac:(cbn; lia))
              ltac:(repeat constructor; apply bounded_small; cbn; lia))
    as (found & s' & Hrun & _ & Hrate & _).
  exists found, s'. split; [exact Hrun|].
  exact (Hrate (S754_finite false 4691249611844266 (-46))
           ltac:(lia) eq_refl eq_refl).
Defined.

(** Scenarios 5 and 6 of the design document, evaluated: two failures
    out of three requests, and seventeen requests out of twenty for one
    model, each with a previous report in the store. *)
Example scenario_failure_rate :
  fst (_detect_anomalies LedgerSpec.quiet 3 2 [("Model A", 2); ("Model B", 1)]
         week (boot with_report))
  = Ok [high_failure_rate "Failure rate is 66.7%" "high"
          (S754_finite false 4691249611844266 (-46))].
Proof. vm_compute. reflexivity. Qed.

Example scenario_model_imbalance :
  fst (_detect_anomalies LedgerSpec.quiet 20 0 [("Model A", 17); ("Model B", 3)]
         week (boot with_report))
  = Ok [request_volume_spike "Request volume changed by 566.7%" "high" 20 3;
        model_imbalance "Model A accounts for 85.0% of requests" "low" "Model A"
          (float_of_int 85)].
Proof. vm_compute. reflexivity. Qed.

(** Without a previous report only the failure rate is looked at. *)
Example scenario_no_previous_report :
  fst (_detect_anomalies LedgerSpec.quiet 20 3 [("Model A", 17); ("Model B", 3)]
         week (boot empty))
  = Ok [high_failure_rate "Failure rate is 15.0%" "medium" (float_of_int 15)].
Proof. vm_compute. reflexivity. Qed.

(** *** The figures of the report *)

Lemma count_transactions l : forall a b,
  fold_left count_transaction l (a, b)
  = (a + sum_credits (List.filter (of_type "deduction") l),
     b + sum_credits (List.filter (of_type "refund") l)).
Proof.
  induction l as [|doc rest IH]; intros a b; cbn [fold_left List.filter sum_credits].
  - f_equal; lia.
  - destruct (count_transaction (a, b) doc) as [a' b'] eqn:E. rewrite IH.
    revert E. unfold count_transaction, of_type. cbn [fst snd].
    repeat case_bool_decide; try congruence; intros [= <- <-];
      cbn [sum_credits]; f_equal; lia.
Qed.

Lemma completed_eqb r :
  String.eqb (default "pending" (RequestDoc.status r)) "completed" = is_completed r.
Proof.
  unfold is_completed. destruct (RequestDoc.status r) as [st|]; cbn.
  - destruct (String.eqb_spec st "completed") as [-> | Hne].
    + symmetry. apply bool_decide_eq_true_2. reflexivity.
    + symmetry. apply bool_decide_eq_false_2. congruence.
  - symmetry. apply bool_decide_eq_false_2. discriminate.
Qed.

Lemma count_requests l : forall acc,
  total_requests (fold_left count_request l acc)
  = total_requests acc + Z.of_nat (length l) /\
  successful_requests (fold_left count_request l acc)
  = successful_requests acc + Z.of_nat (length (List.filter is_completed l)).
Proof.
  induction l as [|r rest IH]; intros acc; cbn [fold_left length List.filter].
  - split; lia.
  - destruct (IH (count_request acc r)) as [-> ->].
    cbn [count_request total_requests successful_requests].
    rewrite completed_eqb. destruct (is_completed r); cbn [length]; split; lia.
Qed.

Lemma without_credit ty l :
  ty <> "credit" ->
  List.filter (of_type ty) (List.filter (fun doc => negb (of_type "credit" doc)) l)
  = List.filter (of_type ty) l.
Proof.
  intros Hty. induction l as [|doc rest IH]; [reflexivity|].
  cbn [List.filter].
  destruct (of_type "credit" doc) eqn:Ec; cbn [negb List.filter];
    destruct (of_type ty doc) eqn:Et; rewrite ?IH; try reflexivity.
  unfold of_type in Ec, Et.
  apply bool_decide_eq_true_1 in Ec. apply bool_decide_eq_true_1 in Et.
  congruence.
Qed.

Lemma filter_length {A} (f : A -> bool) l :
  (length (List.filter f l) <= length l)%nat.
Proof.
  induction l as [|x rest IH]; cbn [List.filter length]; [lia|].
  destruct (f x); cbn [length]; lia.
Qed.

(** *** Rounding *)

Lemma round_half_even_nearest num d :
  0 < d -> nearest num d (round_half_even num d).
Proof.
  intros Hd. unfold nearest, round_half_even.
  pose proof (Z.div_mod num d ltac:(lia)) as Hdm.
  pose proof (Z.mod_pos_bound num d Hd) as Hm.
  destruct (Z.compare_spec (2 * (num mod d)) d) as [He | Hl | Hg].
  - destruct (Z.even (num / d)) eqn:Ev.
    + split; [|intros _; exact Ev].
      replace (num - num / d * d) with (num mod d) by lia. lia.
    + split.
      * replace (num - (num / d + 1) * d) with (num mod d - d) by lia. lia.
      * intros _. rewrite Z.even_add, Ev. reflexivity.
  - split.
    + replace (num - num / d * d) with (num mod d) by lia. lia.
    + replace (num - num / d * d) with (num mod d) by lia. lia.
  - split.
    + replace (num - (num / d + 1) * d) with (num mod d - d) by lia. lia.
    + replace (num - (num / d + 1) * d) with (num mod d - d) by lia. lia.
Qed.

(** [round(x, 2)] rounds to two decimals. *)
Lemma round2_rounded x : rounded_to_hundredths x (round2 x).
Proof.
  destruct x as [sx | sx | | s m e]; cbn [rounded_to_hundredths round2];
    try reflexivity.
  destruct (0 <=? e) eqn:He.
  - eexists. split; reflexivity.
  - eexists. split; [|reflexivity].
    apply round_half_even_nearest. apply Z.pow_pos_nonneg; lia.
Qed.

(** C6: when the two scans of the window and the write of the report go
    through, a report is generated and added to the store, with these
    figures over the window's records: [successRate] is
    [successful / total * 100] rounded to two decimals, and [0] when there
    is no request; [totalCreditsConsumed] is the sum of [credits] over the
    deduction records and [totalCreditsRefunded] the sum over the refund
    records, credit records counting in neither; and [netCreditsUsed] is
    their difference. *)
Theorem C6_report_figures w s :
  fault w (calls s) = false ->
  fault w (S (calls s)) = false ->
  fault w (S (S (S (calls s)))) = false ->
  let end_date := midnight (clock w (clock_reads s)) in
  let start_date := end_date - 7 * day in
  let requests :=
    List.filter (fun r => in_window start_date end_date (RequestDoc.createdAt r))
                (map snd (generation_requests (db s))) in
  let transactions :=
    List.filter (fun r => in_window start_date end_date (TransactionDoc.timestamp r))
                (credit_transactions (db s)) in
  let total := Z.of_nat (length requests) in
  let successful := Z.of_nat (length (List.filter is_completed requests)) in
  let consumed := sum_credits (List.filter (of_type "deduction") transactions) in
  let refunded := sum_credits (List.filter (of_type "refund") transactions) in
  let others :=
    List.filter (fun doc => negb (of_type "credit" doc)) transactions in
  exists report_id s' report,
    generate_weekly_report w s = (Ok report_id, s') /\
    weekly_reports (db s') = weekly_reports (db s) ++ [report] /\
    weekStartDate report = start_date /\
    weekEndDate report = end_date /\
    totalRequests report = Some total /\
    successfulRequests report = successful /\
    (total = 0 -> successRate report = Int 0) /\
    (0 < total ->
     exists rate rounded,
       percent successful total = Ok rate /\
       successRate report = Float rounded /\
       rounded_to_hundredths rate rounded) /\
    totalCreditsConsumed report = consumed /\
    totalCreditsRefunded report = refunded /\
    consumed = sum_credits (List.filter (of_type "deduction") others) /\
    refunded = sum_credits (List.filter (of_type "refund") others) /\
    netCreditsUsed report = consumed - refunded.
Proof.
  intros F0 F1 F3 end_date start_date requests transactions total successful
         consumed refunded others.
  unfold generate_weekly_report.
  unfold bind at 1. unfold now at 1.
  unfold bind at 1. unfold stream at 1, bind at 1, rpc at 1.
  cbn [calls db clock_reads ids_drawn]. rewrite F0. unfold read at 1.
  unfold bind at 1. unfold stream at 1, bind at 1, rpc at 1.
  cbn [calls db clock_reads ids_drawn]. rewrite F1. unfold read at 1.
  cbn [calls db clock_reads ids_drawn].
  rewrite count_transactions.
  unfold bind at 1. rewrite detect_anomalies_eq.
  change week with (7 * day).
  fold end_date. fold start_date. fold requests. fold transactions.
  fold consumed. fold refunded.
  destruct (count_requests requests zero) as [Htot Hsucc].
  cbn [zero total_requests successful_requests] in Htot, Hsucc.
  rewrite Z.add_0_l in Htot, Hsucc. fold total in Htot. fold successful in Hsucc.
  rewrite Htot, Hsucc.
  assert (Hle : successful <= total).
  { unfold successful, total. pose proof (filter_length is_completed requests). lia. }
  assert (Hcons : consumed = sum_credits (List.filter (of_type "deduction") others))
    by (unfold others; rewrite without_credit by discriminate; reflexivity).
  assert (Href : refunded = sum_credits (List.filter (of_type "refund") others))
    by (unfold others; rewrite without_credit by discriminate; reflexivity).
  unfold bind at 1.
  destruct (0 <? total) eqn:Ht.
  - apply Z.ltb_lt in Ht.
    destruct (percent_defined successful total ltac:(lia)) as (q & _ & Hq).
    { assert (0 < 2 ^ 1023) by (apply Z.pow_pos_nonneg; lia).
      assert (0 <= successful) by (unfold successful; lia). nia. }
    unfold bind at 1. unfold of_res at 1. rewrite Hq. unfold ret at 1.
    unfold bind at 1. unfold now at 1. unfold bind at 1. unfold document at 1.
    unfold bind at 1. unfold add_report at 1. unfold bind at 1. unfold rpc at 1.
    cbn [LedgerSpec.advance calls db clock_reads ids_drawn Nat.add].
    rewrite F3.
    eexists _, _, _. split; [reflexivity|].
    cbn [db with_db weekly_reports]. split; [reflexivity|].
    cbn [weekStartDate weekEndDate totalRequests successfulRequests successRate
         totalCreditsConsumed totalCreditsRefunded netCreditsUsed round_number2].
    do 4 (split; [reflexivity|]).
    split; [intros; lia|].
    split.
    { intros _. exists (mul_int q 100), (round2 (mul_int q 100)).
      split; [reflexivity|]. split; [reflexivity | apply round2_rounded]. }
    repeat (split; [first [lia | assumption]|]). lia.
  - apply Z.ltb_ge in Ht.
    unfold ret at 1.
    unfold bind at 1. unfold now at 1. unfold bind at 1. unfold document at 1.
    unfold bind at 1. unfold add_report at 1. unfold bind at 1. unfold rpc at 1.
    cbn [LedgerSpec.advance calls db clock_reads ids_drawn Nat.add].
    rewrite F3.
    eexists _, _, _. split; [reflexivity|].
    cbn [db with_db weekly_reports]. split; [reflexivity|].
    cbn [weekStartDate weekEndDate totalRequests successfulRequests successRate
         totalCreditsConsumed totalCreditsRefunded netCreditsUsed round_number2].
    do 4 (split; [reflexivity|]).
    split; [intros _; reflexivity|].
    split; [intros; lia|].
    repeat (split; [first [lia | assumption]|]). lia.
Qed.

Lemma C6_witness :
  exists report_id s' report,
    generate_weekly_report day_ten (boot thirds_week) = (Ok report_id, s') /\
    weekly_reports (db s') = [report] /\
    percent 1 3 = Ok (S754_finite false 4691249611844266 (-47)) /\
    successRate report = Float (S754_finite false 4690780486883082 (-47)) /\
    netCreditsUsed report = 3.
Proof.
  destruct (C6_report_figures day_ten (boot thirds_week) eq_refl eq_refl eq_refl)
    as (rid & s' & report & Hrun & Hrep & _ & _ & _ & _ & _ & Hrate & _ & _ & _
        & _ & Hnet).
  exists rid, s', report. split; [exact Hrun|]. split; [exact Hrep|].
  split; [vm_compute; reflexivity|].
  split.
  - destruct (Hrate ltac:(vm_compute; reflexivity)) as (rate & r & Hp & -> & Hr).
    vm_compute in Hp. injection Hp as <-.
    destruct Hr as (n & Hn & ->). cbn [Z.leb Z.compare] in Hn.
    destruct Hn as [Hn _].
    assert (n = 3333) as ->.
    { change (2 ^ (- -47)) with 140737488355328 in Hn. lia. }
    vm_compute. reflexivity.
  - rewrite Hnet. vm_compute. reflexivity.
Defined.

(** Scenario 4, evaluated on [busy_week]. *)
Example scenario_report :
  option_map
    (fun r => (totalRequests r, successfulRequests r, failedRequests r,
               successRate r, totalCreditsConsumed r, totalCreditsRefunded r,
               netCreditsUsed r, requestsByModel r, creditsBySize r, anomalies r))
    (last (weekly_reports (db (snd (generate_weekly_report day_ten (boot busy_week))))))
  = Some (Some 6, 3, 2, Float (float_of_int 50), 15, 5, 10,
          [("Model A", 6)], [("1024x1024", 9)],
          [high_failure_rate "Failure rate is 33.3%" "high"
             (S754_finite false 4691249611844266 (-47))]).
Proof. vm_compute. reflexivity. Qed.

End ReportFacts.

(** ** More on validation *)

Module ValidatorMore.
Import Py RequestValidator ValidatorSpec MoreSpec ValidatorFacts.

Lemma check_required_app data before rest :
  Forall (field_ok data) before ->
  check_required data (before ++ rest) = check_required data rest.
Proof.
  induction before as [|f before IH]; intros H; [reflexivity|].
  apply Forall_cons in H. destruct H as [(v & Ev & Hv) Hrest].
  cbn [app check_required]. rewrite Ev.
  destruct v; try (apply IH; exact Hrest).
  case_bool_decide as Hin; cbn [andb]; [|apply IH; exact Hrest].
  rewrite (Hv _ eq_refl Hin). apply IH. exact Hrest.
Qed.

(** X1: the first required field (in the order userId, model, style,
    color, size, prompt) that the payload lacks is the one reported,
    provided the fields before it pass the loop (they are present, and a
    userId that is a string is not blank). *)
Theorem X1_first_missing_field data before field after :
  required_fields = before ++ field :: after ->
  Forall (field_ok data) before ->
  data !! field = None ->
  validate_generation_request data
  = Ok (Invalid ("Missing required field: " +:+ field)).
Proof.
  intros Hreq Hbefore Hnone. unfold validate_generation_request.
  rewrite Hreq, (check_required_app _ _ _ Hbefore).
  cbn [check_required]. rewrite Hnone. reflexivity.
Qed.

Lemma X1_witness :
  validate_generation_request (delete "size" (sample "A beautiful sunset"))
  = Ok (Invalid "Missing required field: size").
Proof.
  apply (X1_first_missing_field _ ["userId"; "model"; "style"; "color"] "size"
           ["prompt"] eq_refl).
  - repeat constructor; (eexists; split; [reflexivity|]);
      intros s [= <-] _; reflexivity.
  - reflexivity.
Defined.

(** X2: validation accepts a payload exactly when its userId, model,
    style, color, size and prompt are strings, the userId and the prompt
    are not blank, model, style, color and size are in their lists, and
    the stripped prompt has at most 1000 characters. *)
Theorem X2_accepted_payloads data :
  validate_generation_request data = Ok Valid <->
  exists user_id model style color size prompt,
    fields_valid data user_id model style color size /\
    data !! "prompt" = Some (JStr prompt) /\
    is_empty (strip prompt) = false /\
    len (strip prompt) <= 1000.
Proof.
  split; [apply validate_valid_inv|].
  intros (u & m & st & c & sz & p & Hf & Hp & Hne & Hlen).
  rewrite (validate_prompt _ _ _ _ _ _ _ Hf Hp). unfold prompt_verdict.
  rewrite Hne. replace (1000 <? len (strip p)) with false; [reflexivity|].
  symmetry. apply Z.ltb_ge. exact Hlen.
Qed.

(** X3: when all six fields are present and the prompt, if it is a
    string, is not blank, a userId that is not a string makes validation
    raise [AttributeError] (from [.strip()]) instead of returning a
    verdict. *)
Theorem X3_non_string_user_id data v :
  (forall field, field ∈ required_fields -> is_Some (data !! field)) ->
  (forall p, data !! "prompt" = Some (JStr p) -> is_empty (strip p) = false) ->
  data !! "userId" = Some v ->
  is_str v = false ->
  validate_generation_request data = Raise AttributeError.
Proof.
  intros Hall Hprompt Hu Hv. unfold validate_generation_request.
  assert (Hloop : check_required data required_fields = None).
  { apply check_required_None. apply Forall_forall. intros f Hf.
    destruct (Hall f Hf) as [x Hx]. exists x. split; [exact Hx|].
    intros s -> Hin. apply elem_of_cons in Hin. destruct Hin as [-> | Hin].
    - rewrite Hu in Hx. injection Hx as ->. discriminate Hv.
    - apply elem_of_cons in Hin. destruct Hin as [-> | Hin].
      + apply Hprompt. exact Hx.
      + apply elem_of_nil in Hin. destruct Hin. }
  rewrite Hloop, Hu. cbn [default from_option id].
  destruct v; try reflexivity. discriminate Hv.
Qed.

Lemma X3_witness :
  validate_generation_request
    (<["userId" := JInt 123]> (sample "A beautiful sunset"))
  = Raise AttributeError.
Proof.
  apply (X3_non_string_user_id _ (JInt 123)).
  - intros f Hf. unfold required_fields in Hf.
    repeat (apply elem_of_cons in Hf; destruct Hf as [-> | Hf];
            [eexists; reflexivity|]).
    apply elem_of_nil in Hf. destruct Hf.
  - intros p [= <-]. reflexivity.
  - reflexivity.
  - reflexivity.
Defined.

Lemma rstrip_last s c : last_char (rstrip s) = Some c -> isspace c = false.
Proof.
  induction s as [|a s IH]; cbn [rstrip]; [discriminate|].
  destruct (rstrip s) as [|b r] eqn:Er.
  - destruct (isspace a) eqn:Ea; cbn; [discriminate | intros [= <-]; exact Ea].
  - cbn [last_char]. exact IH.
Qed.

Lemma match_id_spec u :
  match_id u = true <->
  (u <> "" /\ all_chars id_char u = true) \/
  (exists v, u = v +:+ String "010" "" /\ v <> "" /\ all_chars id_char v = true).
Proof.
  induction u as [|c rest IH].
  - cbn. split; [discriminate|].
    intros [[H _] | (v & H & _)]; [congruence|].
    destruct v; discriminate H.
  - destruct (id_char c) eqn:Ec.
    2:{ assert (match_id (String c rest) = false) as ->
          by (cbn [match_id]; rewrite Ec; reflexivity).
        split; [discriminate|].
        intros [[_ H] | (v & H & Hv & Ha)].
        - cbn in H. rewrite Ec in H. discriminate.
        - destruct v as [|c' v']; [congruence|]. cbn in H. injection H as <- _.
          cbn in Ha. rewrite Ec in Ha. discriminate. }
    destruct (string_dec rest "") as [-> | Hne].
    { cbn. rewrite Ec. split; [|reflexivity]. intros _. left.
      split; [discriminate | reflexivity]. }
    destruct (string_dec rest (String "010" "")) as [-> | Hnl].
    { cbn. rewrite Ec. split; [|reflexivity]. intros _. right.
      exists (String c ""). split; [reflexivity|]. split; [discriminate|].
      cbn. rewrite Ec. reflexivity. }
    assert (Hm : match_id (String c rest) = match_id rest).
    { cbn [match_id]. rewrite Ec. cbn [andb].
      destruct rest as [|d rest']; [congruence|].
      destruct d as [[] [] [] [] [] [] [] []]; try reflexivity.
      destruct rest'; [congruence | reflexivity]. }
    rewrite Hm, IH. split.
    + intros [[_ H] | (v & H & Hv & Ha)].
      * left. split; [discriminate|]. cbn. rewrite Ec. exact H.
      * right. exists (String c v). split; [cbn; rewrite H; reflexivity|].
        split; [discriminate|]. cbn. rewrite Ec. exact Ha.
    + intros [[_ H] | (v & H & Hv & Ha)].
      * left. split; [exact Hne|]. cbn in H. rewrite Ec in H. exact H.
      * destruct v as [|c' v']; [congruence|]. cbn in H. injection H as <- H.
        right. exists v'. split; [exact H|].
        split; [intros ->; exact (Hnl H)|].
        cbn in Ha. rewrite Ec in Ha. exact Ha.
Qed.

Lemma last_char_app v c : last_char (v +:+ String c "") = Some c.
Proof.
  induction v as [|a v IH]; [reflexivity|].
  change (last_char (String a (v +:+ String c "")) = Some c).
  cbn [last_char].
  destruct (v +:+ String c "") eqn:E; [destruct v; discriminate E | exact IH].
Qed.

(** X4: [validate_user_id] accepts exactly the strings that, once
    stripped, have between 1 and 128 characters, all of them ASCII
    letters, digits, underscores or dashes; anything that is not a string
    is refused.  (The newline that the pattern's [$] would tolerate at the
    end cannot be there after [strip()].) *)
Theorem X4_validate_user_id v :
  validate_user_id v = true <->
  exists s, v = JStr s /\ 1 <= len (strip s) <= 128 /\
            all_chars id_char (strip s) = true.
Proof.
  destruct v; try (split; [discriminate | intros (? & [=] & _)]).
  cbn [validate_user_id].
  assert (Hid : match_id (strip s) = true <->
                strip s <> "" /\ all_chars id_char (strip s) = true).
  { rewrite match_id_spec. split; [|intros H; left; exact H].
    intros [H | (u & Hu & _)]; [exact H|]. exfalso.
    pose proof (rstrip_last (lstrip s) "010") as Hl.
    fold (strip s) in Hl. rewrite Hu, last_char_app in Hl.
    specialize (Hl eq_refl). discriminate Hl. }
  destruct (is_empty s) eqn:Es.
  { split; [discriminate|]. intros (s' & [= <-] & Hlen & _).
    destruct s; [|discriminate Es].
    assert (len (strip "") = 0) as H0 by reflexivity. lia. }
  destruct (len (strip s) <? 1) eqn:E1; cbn [orb].
  { apply Z.ltb_lt in E1. split; [discriminate|].
    intros (s' & [= <-] & Hlen & _). lia. }
  destruct (128 <? len (strip s)) eqn:E2.
  { apply Z.ltb_lt in E2. split; [discriminate|].
    intros (s' & [= <-] & Hlen & _). lia. }
  apply Z.ltb_ge in E1. apply Z.ltb_ge in E2.
  destruct (match_id (strip s)) eqn:Em; cbn [negb].
  - split; [|reflexivity]. intros _. exists s. split; [reflexivity|].
    split; [lia|]. apply Hid. reflexivity.
  - split; [discriminate|]. intros (s' & [= <-] & Hlen & Ha).
    assert (false = true) as Hm; [|discriminate Hm].
    apply Hid. split; [|exact Ha]. intros H0. rewrite H0 in Hlen.
    assert (len "" = 0) as H1 by reflexivity. lia.
Qed.

(** The two validators disagree: the request validator takes a userId
    that [validate_user_id] refuses. *)
Example user_id_checks_differ :
  validate_generation_request
    (<["userId" := JStr "user@123"]> (sample "A beautiful sunset")) = Ok Valid
  /\ validate_user_id (JStr "user@123") = false
  /\ validate_user_id (JStr "  user_123-a  ") = true.
Proof. vm_compute. repeat split; reflexivity. Qed.

End ValidatorMore.

(** ** More on the credit service *)

Module LedgerMore.
Import Py Firestore Transaction CreditService LedgerSpec LedgerFacts.

(** X5: reading a balance never raises and never changes the store.  It
    answers the stored [credits] value ([0] when the document has no such
    field), [0] for a user without an account, and also [0] when the
    remote read fails. *)
Theorem X5_get_user_credits w user_id s :
  exists c s',
    get_user_credits w user_id s = (Ok c, s') /\
    db s' = db s /\
    (fault w (calls s) = true -> c = 0) /\
    (fault w (calls s) = false ->
     c = match users (db s) !! user_id with
         | Some doc => default 0 (UserDoc.credits doc)
         | None => 0
         end).
Proof.
  unfold get_user_credits, catch, bind, get_user, bind, rpc, read.
  destruct (fault w (calls s)) eqn:F.
  - eexists _, _. split; [reflexivity|]. split; [reflexivity|].
    split; [reflexivity | discriminate].
  - cbn. destruct (users (db s) !! user_id) as [doc|];
      (eexists _, _; split; [reflexivity|]; split; [reflexivity|];
       split; [discriminate | reflexivity]).
Qed.

(** X6: [create_user_with_credits] never raises.  It answers [True]
    exactly when both of its writes go through; then the account document
    is the new one (whatever was stored for that user before is replaced)
    and one [credit] record without a request id is appended.  The two
    writes are not atomic: when only the second one fails the answer is
    [False] and the account is stored without its record.  Other users'
    accounts are never touched. *)
Theorem X6_create_user_with_credits w user_id amount email s :
  exists ok s',
    create_user_with_credits w user_id amount email s = (Ok ok, s') /\
    (ok = true <-> fault w (calls s) = false /\ fault w (S (calls s)) = false) /\
    (fault w (calls s) = true -> db s' = db s) /\
    (fault w (calls s) = false ->
     exists doc,
       users (db s') !! user_id = Some doc /\
       UserDoc.userId doc = user_id /\
       UserDoc.credits doc = Some amount /\
       UserDoc.email doc = truthy email) /\
    (ok = true ->
     exists record,
       credit_transactions (db s') = credit_transactions (db s) ++ [record] /\
       records record user_id CREDIT amount "" /\
       TransactionDoc.generationRequestId record = None) /\
    (ok = false -> credit_transactions (db s') = credit_transactions (db s)) /\
    (forall u, u <> user_id -> users (db s') !! u = users (db s) !! u).
Proof.
  rewrite create_user_with_credits_eq. cbv zeta.
  destruct (fault w (calls s)) eqn:F0; [|destruct (fault w (S (calls s))) eqn:F1];
    eexists _, _; (split; [reflexivity|]).
  - split; [split; [discriminate | intros [H _]; discriminate H]|].
    split; [reflexivity|]. split; [discriminate|]. split; [discriminate|].
    split; reflexivity.
  - split; [split; [discriminate | intros [_ H]; discriminate H]|].
    split; [discriminate|].
    split.
    { intros _. eexists. cbn [db with_db put_user users].
      rewrite lookup_insert_eq. repeat split. }
    split; [discriminate|]. split; [reflexivity|].
    intros u Hu. cbn [db with_db put_user users].
    rewrite lookup_insert_ne by congruence. reflexivity.
  - split; [split; [intros _; split; reflexivity | reflexivity]|].
    split; [discriminate|].
    split.
    { intros _. eexists. cbn [db with_db put_user add_transaction users].
      rewrite lookup_insert_eq. repeat split. }
    split.
    { intros _. eexists. split; [reflexivity|].
      split; [apply grant_record_records | reflexivity]. }
    split; [discriminate|].
    intros u Hu. cbn [db with_db put_user add_transaction users].
    rewrite lookup_insert_ne by congruence. reflexivity.
Qed.

End LedgerMore.

(** ** More on the orchestrator *)

Module OrchestratorMore.
Import Py Firestore Transaction CreditService RequestValidator Request Main.
Import ValidatorSpec LedgerSpec OrchestratorSpec.
Import ValidatorFacts LedgerFacts OrchestratorFacts.

(** X8: the charge never commits.  Whatever the account holds, the
    transaction that [createGenerationRequest] runs raises, and the store
    is as it was before: [deduct_credits] reports failure, the body
    raises ["Failed to deduct credits"], and the transaction is rolled
    back.  That exception is the one that reaches the handler unless the
    begin or the rollback call itself fails. *)
Theorem X8_charge_never_commits w user_id cost rid gr s :
  exists e s',
    transactional w (create_request_transaction w user_id cost rid gr) s
    = (Raise e, s') /\
    db s' = db s /\
    (fault w (calls s) = false -> fault w (S (calls s)) = false ->
     e = Exception "Failed to deduct credits").
Proof.
  rewrite create_request_transaction_eq. eexists _, _.
  split; [reflexivity|]. split; [reflexivity|].
  intros -> ->. reflexivity.
Qed.

(** X9: a request that is not a POST, whose body cannot be parsed, is
    empty or fails validation is answered without any access to the store
    or the clock: 405 for another method; the generic 500 when
    [get_json] raises; 400 for a body that is falsy ([null], [false], [0],
    an empty string, list or object); 400 with the validator's message
    when validation returns invalid; and the generic 500 when the
    validator itself raises (as it does on a number, or on a list that
    holds ["userId"]). *)
Theorem X9_rejected_without_store_access w req s :
  (method req <> "POST" ->
   createGenerationRequest w req s
   = (Ok {| status := 405; body := Error "Method not allowed" |}, s)) /\
  (method req = "POST" ->
   (forall e, get_json req = Raise e ->
      createGenerationRequest w req s
      = (Ok {| status := 500; body := Error "Internal server error" |}, s)) /\
   (forall data, get_json req = Ok data ->
      (truth data = false ->
       createGenerationRequest w req s
       = (Ok {| status := 400; body := Error "Invalid request body" |}, s)) /\
      (truth data = true ->
       (forall error,
           validate_body data = Ok (Invalid error) ->
           createGenerationRequest w req s
           = (Ok {| status := 400; body := Error error |}, s)) /\
       (forall e,
           validate_body data = Raise e ->
           createGenerationRequest w req s
           = (Ok {| status := 500; body := Error "Internal server error" |},
              s))))).
Proof.
  split.
  - intros Hm. unfold createGenerationRequest, catch.
    apply String.eqb_neq in Hm. rewrite Hm. reflexivity.
  - intros Hm. split.
    + intros e Hj. unfold createGenerationRequest, catch.
      rewrite Hm, Hj. reflexivity.
    + intros data Hj. split; [|intros Ht; split].
      * intros Ht. unfold createGenerationRequest, catch.
        rewrite Hm, Hj. cbn [String.eqb Ascii.eqb Bool.eqb negb].
        unfold bind at 1. unfold of_res at 1. rewrite Ht. reflexivity.
      * intros error Hv. unfold createGenerationRequest, catch.
        rewrite Hm, Hj. cbn [String.eqb Ascii.eqb Bool.eqb negb].
        unfold bind at 1. unfold of_res at 1. rewrite Ht. cbn [negb].
        unfold bind at 1. unfold of_res at 1. rewrite Hv. reflexivity.
      * intros e Hv. unfold createGenerationRequest, catch.
        rewrite Hm, Hj. cbn [String.eqb Ascii.eqb Bool.eqb negb].
        unfold bind at 1. unfold of_res at 1. rewrite Ht. cbn [negb].
        unfold bind at 1. unfold of_res at 1. rewrite Hv. reflexivity.
Qed.

(** Bodies that are not objects: a list without ["userId"] is answered
    400, a number 500, [null] 400; so is a request without a readable
    body answered 500. *)
Example bodies_that_are_not_objects :
  let answer body :=
    fst (createGenerationRequest quiet {| method := "POST"; get_json := body |}
           (boot user123)) in
  answer (Ok (Array [JInt 1]))
  = Ok {| status := 400; body := Error "Missing required field: userId" |} /\
  answer (Ok (Array [JStr "userId"]))
  = Ok {| status := 500; body := Error "Internal server error" |} /\
  answer (Ok (Integer 5))
  = Ok {| status := 500; body := Error "Internal server error" |} /\
  answer (Ok (Text "a prompt"))
  = Ok {| status := 400; body := Error "Missing required field: userId" |} /\
  answer (Ok Null)
  = Ok {| status := 400; body := Error "Invalid request body" |} /\
  answer (Raise (Exception "400 Bad Request"))
  = Ok {| status := 500; body := Error "Internal server error" |}.
Proof. vm_compute. repeat split; reflexivity. Qed.

(** The handler up to the balance read, for a request that passes
    validation. *)
Ltac enter_handler Hm Hj Hf Hp Hv Hc :=
  unfold createGenerationRequest; unfold catch at 1;
  rewrite Hm, Hj; cbn [String.eqb Ascii.eqb Bool.eqb negb];
  unfold bind at 1; unfold of_res at 1; cbn [truth];
  rewrite bool_decide_eq_false_2;
  [| let H := fresh in
     intros ->; pose proof (fv_userId _ _ _ _ _ _ Hf) as H;
     rewrite lookup_empty in H; discriminate H];
  cbn [negb validate_body subscript];
  rewrite Hv;
  rewrite (item_str _ _ _ (fv_userId _ _ _ _ _ _ Hf)),
    (item_str _ _ _ (fv_model _ _ _ _ _ _ Hf)),
    (item_str _ _ _ (fv_style _ _ _ _ _ _ Hf)),
    (item_str _ _ _ (fv_color _ _ _ _ _ _ Hf)),
    (item_str _ _ _ (fv_size _ _ _ _ _ _ Hf)),
    (item_str _ _ _ Hp);
  unfold of_res at 1 2 3 4 5 6 7; unfold bind at 1 2 3 4 5 6 7;
  rewrite Hc;
  unfold bind at 1; rewrite get_user_credits_eq;
  unfold bind at 1; unfold of_res at 1; cbn [lt_opt].

Ltac store_view :=
  cbn [with_db advance db clock_reads ids_drawn calls Nat.add
       add_transaction put_user generation_requests users credit_transactions
       weekly_reports].

(** X10: when the balance read fails, or the balance (0 for a user
    without an account) is below the cost, a valid request is answered 402
    with the cost and the balance the handler saw; the store is unchanged
    and the balance read was the only remote call. *)
Theorem X10_insufficient_credits
        w req data s user_id model style color size prompt cost :
  method req = "POST" ->
  get_json req = Ok (Object data) ->
  fields_valid data user_id model style color size ->
  data !! "prompt" = Some (JStr prompt) ->
  validate_generation_request data = Ok Valid ->
  get_credit_cost size = Some cost ->
  fault w (calls s) = true \/ balance (db s) user_id < cost ->
  let available := if fault w (calls s) then 0 else balance (db s) user_id in
  exists s',
    createGenerationRequest w req s
    = (Ok {| status := 402;
             body := InsufficientCredits "Insufficient credits" cost available |},
       s') /\
    db s' = db s /\ calls s' = S (calls s) /\ clock_reads s' = clock_reads s.
Proof.
  intros Hm Hj Hf Hp Hv Hc Hlow available. subst available.
  assert (Hpos : 1 <= cost).
  { destruct (get_credit_cost_valid size (fv_size_valid _ _ _ _ _ _ Hf))
      as (c & Hc' & Hb). rewrite Hc in Hc'. injection Hc' as <-. lia. }
  enter_handler Hm Hj Hf Hp Hv Hc.
  replace ((if fault w (calls s) then 0 else balance (db s) user_id) <? cost)
    with true.
  2:{ symmetry. apply Z.ltb_lt. destruct (fault w (calls s)); [lia|].
      destruct Hlow as [H | H]; [discriminate H | exact H]. }
  eexists. split; [reflexivity|]. repeat split.
Qed.

Lemma X10_witness :
  exists s',
    createGenerationRequest lucky (post "A beautiful sunset") (boot empty)
    = (Ok {| status := 402;
             body := InsufficientCredits "Insufficient credits" 3 0 |}, s') /\
    db s' = empty.
Proof.
  destruct (X10_insufficient_credits lucky (post "A beautiful sunset")
              (sample "A beautiful sunset") (boot empty)
              "user123" "Model A" "realistic" "vibrant" "1024x1024"
              "A beautiful sunset" 3
              eq_refl eq_refl (sample_fields_valid _) (sample_prompt _)
              sample_ok eq_refl ltac:(right; reflexivity))
    as (s' & Hrun & Hdb & _).
  exists s'. split; [exact Hrun | exact Hdb].
Defined.

(** X11: a valid request whose balance covers the cost is not served
    either.  With the balance read going through, whatever the later calls
    do and whatever the gateway would answer, the handler replies with the
    generic 500 and the store is unchanged: no charge, no transaction
    record, no request document. *)
Theorem X11_sufficient_balance_not_served
        w req data s user_id model style color size prompt cost :
  method req = "POST" ->
  get_json req = Ok (Object data) ->
  fields_valid data user_id model style color size ->
  data !! "prompt" = Some (JStr prompt) ->
  validate_generation_request data = Ok Valid ->
  get_credit_cost size = Some cost ->
  fault w (calls s) = false ->
  cost <= balance (db s) user_id ->
  exists s',
    createGenerationRequest w req s
    = (Ok {| status := 500; body := Error "Internal server error" |}, s') /\
    db s' = db s.
Proof.
  intros Hm Hj Hf Hp Hv Hc F0 Hle.
  enter_handler Hm Hj Hf Hp Hv Hc.
  rewrite F0.
  replace (balance (db s) user_id <? cost) with false
    by (symmetry; apply Z.ltb_ge; exact Hle).
  unfold bind at 1. unfold now at 1.
  unfold bind at 1. unfold document at 1.
  store_view.
  unfold bind at 1.
  rewrite create_request_transaction_eq.
  eexists. split; reflexivity.
Qed.

Lemma X11_witness :
  exists s',
    createGenerationRequest lucky (post "A beautiful sunset") (boot user123)
    = (Ok {| status := 500; body := Error "Internal server error" |}, s') /\
    db s' = user123.
Proof.
  apply (X11_sufficient_balance_not_served lucky (post "A beautiful sunset")
           (sample "A beautiful sunset") (boot user123)
           "user123" "Model A" "realistic" "vibrant" "1024x1024"
           "A beautiful sunset" 3
           eq_refl eq_refl (sample_fields_valid _) (sample_prompt _)
           sample_ok eq_refl eq_refl).
  vm_compute. discriminate.
Defined.

Ltac answered :=
  eexists _, _; split; [reflexivity|]; split; [reflexivity|];
  split; [discriminate | exact I].

Ltac read_field :=
  unfold bind at 1; unfold of_res at 1;
  match goal with
  | |- context [subscript ?d ?k] => destruct (subscript d k); [|answered]
  end.

(** X12: no request is ever served.  On every request, in every state of
    the store and whatever the remote calls and the gateway do,
    [createGenerationRequest] returns a response (it never raises), the
    store is left exactly as it was, the status is never 200, and the body
    is an error body: never the body of a generated image, and never the
    one that reports a refund. *)
Theorem X12_no_request_is_served w req s :
  exists resp s',
    createGenerationRequest w req s = (Ok resp, s') /\
    db s' = db s /\
    status resp <> 200 /\
    match body resp with
    | Error _ | InsufficientCredits _ _ _ => True
    | Generated _ _ _ | GenerationFailed _ _ _ => False
    end.
Proof.
  unfold createGenerationRequest. unfold catch at 1.
  destruct (negb (String.eqb (method req) "POST")); [answered|].
  unfold bind at 1. unfold of_res at 1.
  destruct (get_json req) as [data|e]; [|answered].
  destruct (negb (truth data)); [answered|].
  unfold bind at 1. unfold of_res at 1.
  destruct (validate_body data) as [[|error]|e]; [|answered|answered].
  do 6 read_field.
  unfold bind at 1. rewrite get_user_credits_eq.
  unfold bind at 1. unfold of_res at 1.
  match goal with
  | |- context [get_credit_cost ?sz] =>
      destruct (get_credit_cost sz) as [cost|]; cbn [lt_opt]; [|answered]
  end.
  match goal with
  | |- context [?a <? cost] => destruct (a <? cost); [answered|]
  end.
  unfold bind at 1. unfold now at 1.
  unfold bind at 1. unfold document at 1.
  unfold bind at 1. rewrite create_request_transaction_eq.
  answered.
Qed.

End OrchestratorMore.

(** ** The simulated gateway *)

Module GenerationMore.
Import Py Firestore GenerationService.

(** X14: the gateway's two outcomes.  A call fails exactly when the
    random draw is below the failure rate, which is the same for every
    model, and then raises one of the five fixed messages; otherwise it
    returns the base URL of the model (that of Model B for every model
    other than ["Model A"]) followed by the request id, the time in
    milliseconds and [.jpg]. *)
Theorem X14_generate_image_outcomes w request_id model style color size prompt :
  match generate_image w request_id model style color size prompt with
  | Raise e =>
      SFltb (roll w) MODEL_A_FAILURE_RATE = true /\
      exists msg, e = Exception msg /\ In msg error_messages
  | Ok url =>
      SFltb (roll w) MODEL_A_FAILURE_RATE = false /\
      url = (if String.eqb model "Model A"
             then MODEL_A_BASE_URL else MODEL_B_BASE_URL)
            +:+ "_" +:+ (request_id +:+ "_" +:+ CreditService.str_int (millis w))
            +:+ ".jpg"
  end.
Proof.
  unfold generate_image.
  replace (if String.eqb model "Model A"
           then MODEL_A_FAILURE_RATE else MODEL_B_FAILURE_RATE)
    with MODEL_A_FAILURE_RATE by (destruct (String.eqb model "Model A"); reflexivity).
  destruct (SFltb (roll w) MODEL_A_FAILURE_RATE).
  - split; [reflexivity|]. eexists. split; [reflexivity|].
    apply nth_In. apply Nat.mod_upper_bound. discriminate.
  - destruct (String.eqb model "Model A"); split; reflexivity.
Qed.

End GenerationMore.

(** ** More on the report engine *)

Module ReportMore.
Import Py Firestore ReportDoc ReportService Scheduler.
Import ReportSpec BreakdownSpec FloatFacts ReportFacts.

(** *** Dictionaries filled by [bump] *)

Lemma entry_bump k key n counts :
  entry k (bump key n counts)
  = if String.eqb k key then Some (default 0 (entry k counts) + n)
    else entry k counts.
Proof.
  induction counts as [|[k' v] rest IH]; cbn [bump entry].
  - destruct (String.eqb k key); reflexivity.
  - destruct (String.eqb_spec key k') as [-> | Hne]; cbn [entry].
    + destruct (String.eqb k k'); reflexivity.
    + rewrite IH. destruct (String.eqb_spec k k') as [-> | Hne'].
      * destruct (String.eqb_spec k' key); [congruence | reflexivity].
      * reflexivity.
Qed.

Lemma sum_bump key n counts : sum_values (bump key n counts) = sum_values counts + n.
Proof.
  induction counts as [|[k' v] rest IH]; cbn [bump sum_values]; [lia|].
  destruct (String.eqb key k'); cbn [sum_values]; lia.
Qed.

Lemma entry_None k counts : entry k counts = None <-> ~ In k (map fst counts).
Proof.
  induction counts as [|[k' v] rest IH]; cbn [entry map fst In]; [tauto|].
  destruct (String.eqb_spec k k') as [-> | Hne].
  - split; [discriminate | intros H; exfalso; apply H; left; reflexivity].
  - rewrite IH. split; [intros H [E | E]; [congruence | tauto] | tauto].
Qed.

Lemma keys_bump key n counts :
  map fst (bump key n counts)
  = match entry key counts with
    | Some _ => map fst counts
    | None => map fst counts ++ [key]
    end.
Proof.
  induction counts as [|[k' v] rest IH]; cbn [bump entry map fst]; [reflexivity|].
  destruct (String.eqb key k'); cbn [map fst]; [reflexivity|].
  rewrite IH. destruct (entry key rest); reflexivity.
Qed.

Lemma nodup_bump key n counts :
  NoDup (map fst counts) -> NoDup (map fst (bump key n counts)).
Proof.
  intros H. rewrite keys_bump. destruct (entry key counts) eqn:E; [exact H|].
  apply entry_None in E. apply NoDup_app. split; [exact H|].
  split.
  - intros x Hx Hin. apply list_elem_of_singleton in Hin. subst x.
    apply E. apply list_elem_of_In. exact Hx.
  - apply NoDup_singleton.
Qed.

Section Fold.
Context {A : Type} (key_of : A -> string) (wt : A -> Z).

Lemma weigh_absent k l :
  existsb (fun r => String.eqb (key_of r) k) l = false -> weigh key_of wt k l = 0.
Proof.
  induction l as [|r rest IH]; cbn [existsb weigh]; [reflexivity|].
  destruct (String.eqb (key_of r) k); cbn [orb]; [discriminate|].
  intros H. rewrite IH by exact H. reflexivity.
Qed.

Lemma fill_entry l : forall counts k,
  entry k (fill key_of wt counts l)
  = if existsb (fun r => String.eqb (key_of r) k) l
    then Some (default 0 (entry k counts) + weigh key_of wt k l)
    else entry k counts.
Proof.
  unfold fill.
  induction l as [|r rest IH]; intros counts k; cbn [fold_left existsb weigh];
    [reflexivity|].
  rewrite IH, entry_bump. rewrite (String.eqb_sym k (key_of r)).
  destruct (String.eqb (key_of r) k); cbn [orb default from_option id].
  - destruct (existsb _ rest) eqn:E; [f_equal; lia|].
    rewrite (weigh_absent _ _ E). f_equal. lia.
  - reflexivity.
Qed.

Lemma fill_nodup l : forall counts,
  NoDup (map fst counts) -> NoDup (map fst (fill key_of wt counts l)).
Proof.
  unfold fill. induction l as [|r rest IH]; intros counts H; cbn [fold_left];
    [exact H|].
  apply IH, nodup_bump, H.
Qed.

Lemma fill_sum l : forall counts,
  sum_values (fill key_of wt counts l) = sum_values counts + fold_right (fun r acc => wt r + acc) 0 l.
Proof.
  unfold fill. induction l as [|r rest IH]; intros counts; cbn [fold_left fold_right];
    [lia|].
  rewrite IH, sum_bump. lia.
Qed.

End Fold.

Lemma weigh_tally field k l :
  weigh (label field) (fun _ => 1) k l = tally (has_label field k) l.
Proof.
  unfold tally. induction l as [|r rest IH]; cbn [weigh List.filter]; [reflexivity|].
  rewrite IH. unfold has_label at 2.
  destruct (String.eqb (label field r) k); cbn [length]; lia.
Qed.

Lemma weigh_charged field k l :
  weigh (label field) charged k l = sum_charged (List.filter (has_label field k) l).
Proof.
  induction l as [|r rest IH]; cbn [weigh List.filter]; [reflexivity|].
  rewrite IH. unfold has_label at 2.
  destruct (String.eqb (label field r) k); cbn [sum_charged]; reflexivity.
Qed.

Lemma existsb_tally field k l :
  existsb (fun r => String.eqb (label field r) k) l = true
  <-> 0 < tally (has_label field k) l.
Proof.
  unfold tally. induction l as [|r rest IH]; cbn [existsb List.filter length].
  - split; [discriminate | lia].
  - unfold has_label at 1.
    destruct (String.eqb (label field r) k); cbn [orb length]; [|exact IH].
    split; [lia | reflexivity].
Qed.

Lemma fill_breakdown field l :
  breakdown field l (fill (label field) (fun _ => 1) [] l).
Proof.
  constructor.
  - apply fill_nodup. constructor.
  - intros k n. rewrite fill_entry, weigh_tally. cbn [entry default from_option id].
    destruct (existsb _ l) eqn:E.
    + apply existsb_tally in E. split; [intros [= <-]; split; [lia | lia]|].
      intros [_ ->]. f_equal; lia.
    + split; [discriminate|]. intros [Hpos ->].
      apply existsb_tally in Hpos. congruence.
  - rewrite fill_sum. cbn [sum_values].
    induction l as [|r rest IH]; cbn [fold_right length]; lia.
Qed.

(** *** The counters of the first loop *)

Lemma filter_fold {A B} (p : A -> bool) (f : B -> A -> B) l : forall acc,
  fold_left (fun m r => if p r then f m r else m) l acc
  = fold_left f (List.filter p l) acc.
Proof.
  induction l as [|r rest IH]; intros acc; cbn [fold_left List.filter];
    [reflexivity|].
  rewrite IH. destruct (p r); reflexivity.
Qed.

Lemma counters_fold l : forall acc,
  let c := fold_left count_request l acc in
  requests_by_model c
  = fill (label RequestDoc.model) (fun _ => 1) (requests_by_model acc) l /\
  requests_by_size c
  = fill (label RequestDoc.size) (fun _ => 1) (requests_by_size acc) l /\
  requests_by_style c
  = fill (label RequestDoc.style) (fun _ => 1) (requests_by_style acc) l /\
  requests_by_color c
  = fill (label RequestDoc.color) (fun _ => 1) (requests_by_color acc) l /\
  credits_by_size c
  = fill (label RequestDoc.size) charged (credits_by_size acc)
         (List.filter (has_status "completed") l) /\
  failed_requests c
  = failed_requests acc + tally (has_status "failed") l.
Proof.
  unfold fill, tally.
  induction l as [|r rest IH]; intros acc; cbn [fold_left List.filter length].
  - cbv zeta. repeat split; lia.
  - specialize (IH (count_request acc r)). cbv zeta in IH |- *.
    destruct IH as (-> & -> & -> & -> & -> & ->).
    cbn [count_request requests_by_model requests_by_size requests_by_style
         requests_by_color credits_by_size failed_requests].
    do 4 (split; [reflexivity|]).
    unfold has_status.
    destruct (String.eqb_spec (default "pending" (RequestDoc.status r)) "completed")
      as [E | E].
    + rewrite E. cbn [String.eqb Ascii.eqb Bool.eqb fold_left].
      split; [reflexivity | lia].
    + split; [reflexivity|].
      destruct (String.eqb (default "pending" (RequestDoc.status r)) "failed");
        cbn [length]; lia.
Qed.

(** *** A run of the job *)

(** When one of the two scans fails, the job raises and has written
    nothing. *)
Lemma weekly_report_scan_fails w s :
  fault w (calls s) = true \/ fault w (S (calls s)) = true ->
  exists s', generate_weekly_report w s = (Raise StoreError, s') /\ db s' = db s.
Proof.
  intros H.
  unfold generate_weekly_report.
  unfold bind at 1. unfold now at 1.
  unfold bind at 1. unfold stream at 1, bind at 1, rpc at 1.
  cbn [calls db clock_reads ids_drawn].
  destruct (fault w (calls s)) eqn:F0; [eexists; split; reflexivity|].
  destruct H as [H | F1]; [discriminate H|].
  unfold read at 1.
  unfold bind at 1. unfold stream at 1, bind at 1, rpc at 1.
  cbn [calls db clock_reads ids_drawn]. rewrite F1.
  eexists; split; reflexivity.
Qed.

(** When both scans go through, the report is computed and its write is
    attempted. *)
Lemma weekly_report_run w s :
  fault w (calls s) = false ->
  fault w (S (calls s)) = false ->
  let counters := fold_left count_request (window_requests w s) zero in
  exists report,
    generate_weekly_report w s
    = (if fault w (S (S (S (calls s))))
       then (Raise StoreError, LedgerSpec.advance s 2 1 4)
       else (Ok (auto_id w (ids_drawn s)),
             with_db (LedgerSpec.advance s 2 1 4)
               {| users := users (db s);
                  credit_transactions := credit_transactions (db s);
                  generation_requests := generation_requests (db s);
                  weekly_reports := weekly_reports (db s) ++ [report] |})) /\
    weekStartDate report = window_start w s /\
    weekEndDate report = window_end w s /\
    totalRequests report = Some (total_requests counters) /\
    successfulRequests report = successful_requests counters /\
    failedRequests report = failed_requests counters /\
    requestsByModel report = requests_by_model counters /\
    requestsBySize report = requests_by_size counters /\
    requestsByStyle report = requests_by_style counters /\
    requestsByColor report = requests_by_color counters /\
    creditsBySize report = credits_by_size counters /\
    anomalies report
    = (if fault w (S (S (calls s))) then []
       else compare (previous_week (window_start w s) (db s))
              (total_requests counters) (failed_requests counters)
              (requests_by_model counters)).
Proof.
  intros F0 F1 counters.
  unfold generate_weekly_report.
  unfold bind at 1. unfold now at 1.
  unfold bind at 1. unfold stream at 1, bind at 1, rpc at 1.
  cbn [calls db clock_reads ids_drawn]. rewrite F0. unfold read at 1.
  unfold bind at 1. unfold stream at 1, bind at 1, rpc at 1.
  cbn [calls db clock_reads ids_drawn]. rewrite F1. unfold read at 1.
  cbn [calls db clock_reads ids_drawn].
  rewrite count_transactions.
  unfold bind at 1. rewrite detect_anomalies_eq.
  fold (window_end w s). fold (window_start w s). fold (window_requests w s).
  fold counters.
  destruct (count_requests (window_requests w s) zero) as [Htot Hsucc].
  fold counters in Htot, Hsucc.
  cbn [zero total_requests successful_requests] in Htot, Hsucc.
  rewrite Z.add_0_l in Htot, Hsucc.
  unfold bind at 1.
  destruct (0 <? total_requests counters) eqn:Ht.
  - apply Z.ltb_lt in Ht.
    destruct (percent_defined (successful_requests counters)
                (total_requests counters) ltac:(lia)) as (q & _ & Hq).
    { rewrite Htot, Hsucc.
      pose proof (filter_length is_completed (window_requests w s)).
      assert (0 < 2 ^ 1023) by (apply Z.pow_pos_nonneg; lia). nia. }
    unfold bind at 1. unfold of_res at 1. rewrite Hq. unfold ret at 1.
    unfold bind at 1. unfold now at 1. unfold bind at 1. unfold document at 1.
    unfold bind at 1. unfold add_report at 1. unfold bind at 1. unfold rpc at 1.
    cbn [LedgerSpec.advance calls db clock_reads ids_drawn Nat.add].
    eexists. split.
    { destruct (fault w (S (S (S (calls s))))). 2: reflexivity. reflexivity. }
    repeat split.
  - unfold ret at 1.
    unfold bind at 1. unfold now at 1. unfold bind at 1. unfold document at 1.
    unfold bind at 1. unfold add_report at 1. unfold bind at 1. unfold rpc at 1.
    cbn [LedgerSpec.advance calls db clock_reads ids_drawn Nat.add].
    eexists. split.
    { destruct (fault w (S (S (S (calls s))))). 2: reflexivity. reflexivity. }
    repeat split.
Qed.

Lemma weekly_report_written w s :
  fault w (calls s) = false ->
  fault w (S (calls s)) = false ->
  fault w (S (S (S (calls s)))) = false ->
  let counters := fold_left count_request (window_requests w s) zero in
  exists report_id s' report,
    generate_weekly_report w s = (Ok report_id, s') /\
    weekly_reports (db s') = weekly_reports (db s) ++ [report] /\
    weekStartDate report = window_start w s /\
    failedRequests report = failed_requests counters /\
    successfulRequests report = successful_requests counters /\
    totalRequests report = Some (total_requests counters) /\
    requestsByModel report = requests_by_model counters /\
    requestsBySize report = requests_by_size counters /\
    requestsByStyle report = requests_by_style counters /\
    requestsByColor report = requests_by_color counters /\
    creditsBySize report = credits_by_size counters.
Proof.
  intros F0 F1 F3 counters.
  destruct (weekly_report_run w s F0 F1)
    as (report & Hrun & Hs & _ & Ht & Hsu & Hf & Hm & Hsz & Hst & Hc & Hcr & _).
  rewrite F3 in Hrun.
  eexists _, _, report. split; [exact Hrun|]. split; [reflexivity|].
  repeat split; assumption.
Qed.

(** X15: the four breakdowns of a report.  In [requestsByModel],
    [requestsBySize], [requestsByStyle] and [requestsByColor] every label
    borne by a request of the window (["Unknown"] when the field is
    missing) has exactly one entry, which is the number of requests
    bearing it; labels borne by no request have none; and the entries of
    each breakdown add up to the number of requests of the window. *)
Theorem X15_report_breakdowns w s :
  fault w (calls s) = false ->
  fault w (S (calls s)) = false ->
  fault w (S (S (S (calls s)))) = false ->
  exists report_id s' report,
    generate_weekly_report w s = (Ok report_id, s') /\
    weekly_reports (db s') = weekly_reports (db s) ++ [report] /\
    breakdown RequestDoc.model (window_requests w s) (requestsByModel report) /\
    breakdown RequestDoc.size (window_requests w s) (requestsBySize report) /\
    breakdown RequestDoc.style (window_requests w s) (requestsByStyle report) /\
    breakdown RequestDoc.color (window_requests w s) (requestsByColor report).
Proof.
  intros F0 F1 F3.
  destruct (weekly_report_written w s F0 F1 F3)
    as (rid & s' & report & Hrun & Hrep & _ & _ & _ & _ & Hm & Hsz & Hst & Hc & _).
  destruct (counters_fold (window_requests w s) zero)
    as (Em & Esz & Est & Ec & _).
  exists rid, s', report. split; [exact Hrun|]. split; [exact Hrep|].
  rewrite Hm, Hsz, Hst, Hc, Em, Esz, Est, Ec.
  split; [exact (fill_breakdown _ _)|]. split; [exact (fill_breakdown _ _)|].
  split; exact (fill_breakdown _ _).
Qed.

Lemma X15_witness :
  exists report_id s' report,
    generate_weekly_report day_ten (boot busy_week) = (Ok report_id, s') /\
    weekly_reports (db s') = [report] /\
    entry "Model A" (requestsByModel report) = Some 6 /\
    entry "Model B" (requestsByModel report) = None.
Proof.
  destruct (X15_report_breakdowns day_ten (boot busy_week) eq_refl eq_refl eq_refl)
    as (rid & s' & report & Hrun & Hrep & Hm & _).
  exists rid, s', report. split; [exact Hrun|]. split; [exact Hrep|].
  split.
  - apply (bd_entry _ _ _ Hm). vm_compute. split; reflexivity.
  - destruct (entry "Model B" (requestsByModel report)) as [n|] eqn:E;
      [|reflexivity].
    apply (bd_entry _ _ _ Hm) in E. destruct E as [Hpos ->].
    vm_compute in Hpos. discriminate Hpos.
Defined.

Lemma status_partition l :
  Z.of_nat (length l)
  = tally (has_status "completed") l + tally (has_status "failed") l
    + tally (fun r => negb (has_status "completed" r)
                      && negb (has_status "failed" r)) l.
Proof.
  unfold tally. induction l as [|r rest IH]; cbn [List.filter length]; [reflexivity|].
  unfold has_status in IH |- *.
  destruct (String.eqb_spec (default "pending" (RequestDoc.status r)) "completed")
    as [E | E].
  - rewrite E. cbn [String.eqb Ascii.eqb Bool.eqb negb andb length]. lia.
  - destruct (String.eqb (default "pending" (RequestDoc.status r)) "failed");
      cbn [negb andb length]; lia.
Qed.

Lemma completed_status l :
  List.filter is_completed l = List.filter (has_status "completed") l.
Proof.
  induction l as [|r rest IH]; cbn [List.filter]; [reflexivity|].
  unfold has_status at 1. rewrite completed_eqb, IH. reflexivity.
Qed.

(** X16: the status counts of a report.  [successfulRequests] and
    [failedRequests] are the numbers of requests of the window whose
    status is [completed] and [failed]; a request with any other status,
    or none (read as [pending]), counts in [totalRequests] only.  So the
    two never add up to more than the total, and fall short of it by the
    number of such requests. *)
Theorem X16_report_status_counts w s :
  fault w (calls s) = false ->
  fault w (S (calls s)) = false ->
  fault w (S (S (S (calls s)))) = false ->
  let requests := window_requests w s in
  let unfinished :=
    tally (fun r => negb (has_status "completed" r)
                    && negb (has_status "failed" r)) requests in
  exists report_id s' report,
    generate_weekly_report w s = (Ok report_id, s') /\
    weekly_reports (db s') = weekly_reports (db s) ++ [report] /\
    successfulRequests report = tally (has_status "completed") requests /\
    failedRequests report = tally (has_status "failed") requests /\
    totalRequests report
    = Some (successfulRequests report + failedRequests report + unfinished) /\
    0 <= unfinished.
Proof.
  intros F0 F1 F3 requests unfinished.
  destruct (weekly_report_written w s F0 F1 F3)
    as (rid & s' & report & Hrun & Hrep & _ & Hf & Hsu & Ht & _).
  destruct (counters_fold (window_requests w s) zero)
    as (_ & _ & _ & _ & _ & Ef).
  destruct (count_requests (window_requests w s) zero) as [Etot Esucc].
  exists rid, s', report. split; [exact Hrun|]. split; [exact Hrep|].
  rewrite Hf, Hsu, Ht, Ef, Etot, Esucc, completed_status.
  cbn [zero total_requests successful_requests failed_requests].
  fold requests. rewrite !Z.add_0_l.
  split; [reflexivity|]. split; [reflexivity|].
  split; [f_equal; apply status_partition|].
  unfold unfinished, tally. lia.
Qed.

Lemma X16_witness :
  exists report_id s' report,
    generate_weekly_report day_ten (boot busy_week) = (Ok report_id, s') /\
    weekly_reports (db s') = [report] /\
    successfulRequests report = 3 /\ failedRequests report = 2 /\
    totalRequests report = Some 6.
Proof.
  destruct (X16_report_status_counts day_ten (boot busy_week)
              eq_refl eq_refl eq_refl)
    as (rid & s' & report & Hrun & Hrep & Hs & Hf & Ht & _).
  exists rid, s', report. split; [exact Hrun|]. split; [exact Hrep|].
  rewrite Ht, Hs, Hf. vm_compute. repeat split; reflexivity.
Defined.

(** X17: [creditsBySize] is made from the completed requests only.  A
    size has an entry exactly when some completed request of the window
    has it, and the entry is the sum of [creditsCharged] over those
    requests; failed and pending requests add nothing, although they
    were charged when they were created. *)
Theorem X17_report_credits_by_size w s :
  fault w (calls s) = false ->
  fault w (S (calls s)) = false ->
  fault w (S (S (S (calls s)))) = false ->
  let finished := List.filter (has_status "completed") (window_requests w s) in
  exists report_id s' report,
    generate_weekly_report w s = (Ok report_id, s') /\
    weekly_reports (db s') = weekly_reports (db s) ++ [report] /\
    NoDup (map fst (creditsBySize report)) /\
    (forall k n,
        entry k (creditsBySize report) = Some n <->
        (exists r, In r finished /\ label RequestDoc.size r = k) /\
        n = sum_charged (List.filter (has_label RequestDoc.size k) finished)) /\
    sum_values (creditsBySize report) = sum_charged finished.
Proof.
  intros F0 F1 F3 finished.
  destruct (weekly_report_written w s F0 F1 F3)
    as (rid & s' & report & Hrun & Hrep & _ & _ & _ & _ & _ & _ & _ & _ & Hcr).
  destruct (counters_fold (window_requests w s) zero)
    as (_ & _ & _ & _ & Ecr & _).
  exists rid, s', report. split; [exact Hrun|]. split; [exact Hrep|].
  rewrite Hcr, Ecr. fold finished. cbn [zero credits_by_size].
  split; [apply fill_nodup; constructor|].
  split.
  - intros k n. rewrite fill_entry, weigh_charged.
    cbn [entry default from_option id].
    destruct (existsb _ finished) eqn:E.
    + apply existsb_exists in E. destruct E as (r & Hin & Hr).
      apply String.eqb_eq in Hr.
      split.
      * intros [= <-]. split; [exists r; auto | lia].
      * intros [_ ->]. f_equal; lia.
    + split; [discriminate|]. intros [(r & Hin & Hr) _].
      assert (existsb (fun r => String.eqb (label RequestDoc.size r) k) finished
              = true) as E'; [|congruence].
      apply existsb_exists. exists r. split; [exact Hin|].
      apply String.eqb_eq. exact Hr.
  - rewrite fill_sum. cbn [sum_values].
    induction finished as [|r rest IH]; cbn [fold_right sum_charged]; [reflexivity|].
    unfold charged at 1. lia.
Qed.

Lemma X17_witness :
  exists report_id s' report,
    generate_weekly_report day_ten (boot busy_week) = (Ok report_id, s') /\
    weekly_reports (db s') = [report] /\
    entry "1024x1024" (creditsBySize report) = Some 9.
Proof.
  destruct (X17_report_credits_by_size day_ten (boot busy_week)
              eq_refl eq_refl eq_refl)
    as (rid & s' & report & Hrun & Hrep & _ & He & _).
  exists rid, s', report. split; [exact Hrun|]. split; [exact Hrep|].
  apply He. split; [|vm_compute; reflexivity].
  exists (request_on_day5 "completed"). split; [|reflexivity].
  vm_compute. left. reflexivity.
Defined.

(** X18: the scheduled job.  It returns exactly when the two scans and
    the write of the report go through; it then answers [success] with
    the id of the report it has added, and a failed lookup of the previous
    report costs only the anomalies, which are then empty.  Otherwise it
    hands on the store's exception and has written nothing. *)
Theorem X18_scheduled_job w s :
  match scheduleWeeklyReport w s with
  | (Ok result, s') =>
      (fault w (calls s) = false /\ fault w (S (calls s)) = false /\
       fault w (S (S (S (calls s)))) = false) /\
      reportStatus result = "success" /\
      reportId result = auto_id w (ids_drawn s) /\
      users (db s') = users (db s) /\
      credit_transactions (db s') = credit_transactions (db s) /\
      generation_requests (db s') = generation_requests (db s) /\
      exists report,
        weekly_reports (db s') = weekly_reports (db s) ++ [report] /\
        (fault w (S (S (calls s))) = true -> anomalies report = [])
  | (Raise e, s') =>
      (fault w (calls s) = true \/ fault w (S (calls s)) = true \/
       fault w (S (S (S (calls s)))) = true) /\
      e = StoreError /\ db s' = db s
  end.
Proof.
  unfold scheduleWeeklyReport, catch. unfold bind at 1.
  destruct (fault w (calls s)) eqn:F0.
  { destruct (weekly_report_scan_fails w s (or_introl F0)) as (s' & -> & Hdb).
    unfold raise. auto. }
  destruct (fault w (S (calls s))) eqn:F1.
  { destruct (weekly_report_scan_fails w s (or_intror F1)) as (s' & -> & Hdb).
    unfold raise. auto. }
  destruct (weekly_report_run w s F0 F1)
    as (report & -> & _ & _ & _ & _ & _ & _ & _ & _ & _ & _ & Han).
  destruct (fault w (S (S (S (calls s))))) eqn:F3.
  - unfold raise. auto.
  - unfold ret. cbn [db with_db users credit_transactions generation_requests
                     weekly_reports reportStatus reportId].
    split; [repeat split|].
    repeat (split; [reflexivity|]).
    exists report. split; [reflexivity|].
    intros F2. rewrite F2 in Han. exact Han.
Qed.

Lemma midnight_week t : midnight (t + week) = midnight t + week.
Proof.
  unfold midnight, week.
  replace (t + 7 * day) with (t + 7 * day) by reflexivity.
  rewrite Z.mod_add by (unfold day; lia). lia.
Qed.

Lemma find_app_new {A} (p : A -> bool) l x :
  (forall y, In y l -> p y = false) -> p x = true ->
  List.find p (l ++ [x]) = Some x.
Proof.
  intros Hl Hx. induction l as [|y rest IH]; cbn [app List.find].
  - rewrite Hx. reflexivity.
  - rewrite (Hl y (or_introl eq_refl)). apply IH.
    intros z Hz. apply Hl. right. exact Hz.
Qed.

(** X19: one week's report is the next week's baseline.  After a run
    that stored its report, with no report stored before for the same
    week, the anomaly detection of any run whose window starts where this
    one ended (a run made seven days later does) looks up exactly this
    report as the previous week's. *)
Theorem X19_next_week_baseline w s :
  fault w (calls s) = false ->
  fault w (S (calls s)) = false ->
  fault w (S (S (S (calls s)))) = false ->
  (forall r, In r (weekly_reports (db s)) ->
             weekStartDate r <> window_start w s) ->
  exists report_id s' report,
    generate_weekly_report w s = (Ok report_id, s') /\
    weekly_reports (db s') = weekly_reports (db s) ++ [report] /\
    (forall t, midnight t = window_end w s + week ->
               previous_week (midnight t - week) (db s') = Some report) /\
    midnight (clock w (clock_reads s) + week) = window_end w s + week.
Proof.
  intros F0 F1 F3 Hnew.
  destruct (weekly_report_written w s F0 F1 F3)
    as (rid & s' & report & Hrun & Hrep & Hstart & _).
  exists rid, s', report. split; [exact Hrun|]. split; [exact Hrep|].
  split; [|apply midnight_week].
  intros t Ht. unfold previous_week. rewrite Hrep.
  apply find_app_new.
  - intros r Hr. apply Z.eqb_neq. rewrite Ht.
    specialize (Hnew r Hr). unfold window_start in Hnew. lia.
  - apply Z.eqb_eq. rewrite Hstart, Ht. unfold window_start. lia.
Qed.

Lemma X19_witness :
  exists report_id s' report,
    generate_weekly_report day_ten (boot busy_week) = (Ok report_id, s') /\
    weekly_reports (db s') = [report] /\
    previous_week (midnight (17 * day + 5) - week) (db s') = Some report.
Proof.
  destruct (X19_next_week_baseline day_ten (boot busy_week)
              eq_refl eq_refl eq_refl ltac:(intros r []))
    as (rid & s' & report & Hrun & Hrep & Hprev & _).
  exists rid, s', report. split; [exact Hrun|]. split; [exact Hrep|].
  apply Hprev. vm_compute. reflexivity.
Defined.

(** X20: the window of a report.  It ends at the last midnight at or
    before the run, a whole number of days since the epoch, so it never
    reaches into the day of the run; it starts seven days before; and the
    requests counted are those created from its start on and before its
    end.  The window of a run made seven days later starts where this one
    ends, so that a record falls into one of the two reports and not into
    both. *)
Theorem X20_weekly_windows_tile w s :
  fault w (calls s) = false ->
  fault w (S (calls s)) = false ->
  fault w (S (S (S (calls s)))) = false ->
  let t := clock w (clock_reads s) in
  exists report_id s' report,
    generate_weekly_report w s = (Ok report_id, s') /\
    weekly_reports (db s') = weekly_reports (db s) ++ [report] /\
    weekEndDate report mod 86400000000 = 0 /\
    weekEndDate report <= t < weekEndDate report + 86400000000 /\
    weekStartDate report = weekEndDate report - 7 * 86400000000 /\
    totalRequests report
    = Some (Z.of_nat (length
        (List.filter
           (fun r => (weekStartDate report <=? RequestDoc.createdAt r)
                     && (RequestDoc.createdAt r <? weekEndDate report))
           (map snd (generation_requests (db s)))))) /\
    (forall w2 s2,
        clock w2 (clock_reads s2) = t + 7 * 86400000000 ->
        window_start w2 s2 = weekEndDate report /\
        window_end w2 s2 = weekEndDate report + 7 * 86400000000).
Proof.
  intros F0 F1 F3 t.
  destruct (weekly_report_run w s F0 F1)
    as (report & Hrun & Hs & He & Ht & _).
  rewrite F3 in Hrun.
  destruct (count_requests (window_requests w s) zero) as [Etot _].
  cbn [zero total_requests] in Etot. rewrite Z.add_0_l in Etot.
  eexists _, _, report. split; [exact Hrun|]. split; [reflexivity|].
  rewrite Ht, Etot, Hs, He.
  unfold window_start, window_end, midnight, week. fold t.
  change day with 86400000000.
  pose proof (Z.mod_pos_bound t 86400000000 ltac:(lia)) as Hb.
  pose proof (Z.div_mod t 86400000000 ltac:(lia)) as Hd.
  split.
  { replace (t - t mod 86400000000) with (t / 86400000000 * 86400000000) by lia.
    apply Z.mod_mul. lia. }
  split; [lia|]. split; [reflexivity|]. split; [reflexivity|].
  intros w2 s2 H2. rewrite H2.
  replace (t + 7 * 86400000000) with (t + 7 * 86400000000) by reflexivity.
  rewrite Z.mod_add by lia. lia.
Qed.

Lemma X20_witness :
  exists report_id s' report,
    generate_weekly_report day_ten (boot busy_week) = (Ok report_id, s') /\
    weekly_reports (db s') = [report] /\
    weekEndDate report = 10 * 86400000000 /\
    weekStartDate report = 3 * 86400000000 /\
    totalRequests report = Some 6.
Proof.
  destruct (X20_weekly_windows_tile day_ten (boot busy_week)
              eq_refl eq_refl eq_refl)
    as (rid & s' & report & Hrun & Hrep & Hmod & Hday & Hstart & Htot & _).
  exists rid, s', report. split; [exact Hrun|]. split; [exact Hrep|].
  assert (He : weekEndDate report = 10 * 86400000000).
  { change (clock day_ten (clock_reads (boot busy_week)))
      with (10 * 86400000000 + 5) in Hday.
    pose proof (Z.div_mod (weekEndDate report) 86400000000 ltac:(lia)). lia. }
  split; [exact He|]. rewrite Htot, Hstart, He.
  split; [reflexivity | vm_compute; reflexivity].
Defined.

Lemma volume_check_exact total prev_total :
  bounded total ->
  (prev_total <= 0 /\ volume_check total prev_total = Ok []) \/
  (0 < prev_total /\ exists change,
      percent (total - prev_total) prev_total = Ok change /\
      volume_check total prev_total
      = Ok (if gt_int (fabs change) 50
            then [volume_flag total prev_total change] else [])).
Proof.
  intros Hb. unfold volume_check.
  destruct (0 <? prev_total) eqn:Hp; [right | left].
  - apply Z.ltb_lt in Hp. split; [exact Hp|].
    destruct (percent_defined (total - prev_total) prev_total ltac:(lia)
                (bounded_change _ _ Hb Hp)) as (q & _ & Hq).
    exists (mul_int q 100). split; [exact Hq|]. rewrite Hq. cbn [Py.bind].
    destruct (gt_int (fabs (mul_int q 100)) 50); reflexivity.
  - apply Z.ltb_ge in Hp. split; [exact Hp | reflexivity].
Qed.

(** X21: when a volume anomaly is raised.  With the lookup going
    through and counts within the range of floats, a
    [request_volume_spike] is among the anomalies exactly when a report
    for the week before exists, its [totalRequests] (0 when the field is
    missing) is positive, and the change [(total - previous) / previous *
    100] is above 50 in absolute value, a drop counting like a rise; its
    severity is [high] above 100 and [medium] otherwise, and it carries
    both totals. *)
Theorem X21_volume_spike w total failed by_model start_date s :
  fault w (calls s) = false ->
  bounded total -> bounded failed ->
  Forall (fun entry => bounded (snd entry)) by_model ->
  exists found s',
    _detect_anomalies w total failed by_model start_date s = (Ok found, s') /\
    forall a,
      (In a found /\ exists d sev c p, a = request_volume_spike d sev c p) <->
      exists report change,
        previous_week start_date (db s) = Some report /\
        0 < default 0 (totalRequests report) /\
        percent (total - default 0 (totalRequests report))
                (default 0 (totalRequests report)) = Ok change /\
        gt_int (fabs change) 50 = true /\
        a = volume_flag total (default 0 (totalRequests report)) change.
Proof.
  intros Hf Ht Hfl Hm.
  rewrite detect_anomalies_eq, Hf. eexists _, _. split; [reflexivity|].
  intros a. unfold compare.
  assert (Hfc : exists fl, failure_check total failed = Ok fl /\
                forall x, In x fl -> exists d sev r, x = high_failure_rate d sev r).
  { destruct (failure_check_spec total failed Hfl) as [[_ ->] | (_ & r & _ & ->)].
    - exists []. split; [reflexivity | intros x []].
    - eexists. split; [reflexivity|].
      destruct (gt_int r 10); [|intros x []].
      intros x [<- | []]. unfold failure_flag. eauto. }
  destruct Hfc as (fl & Efc & Hfl').
  destruct (previous_week start_date (db s)) as [report|].
  - set (prev := default 0 (totalRequests report)).
    rewrite Efc.
    destruct (volume_check_exact total prev Ht) as [[Hp ->] | (Hp & change & Hc & ->)];
      cbn [collect]; rewrite !in_app_iff.
    + split.
      * intros [[Hin | [Hin | Hin]] (d & sev & c & p & ->)].
        -- destruct Hin.
        -- destruct (Hfl' _ Hin) as (? & ? & ? & [=]).
        -- apply (collect_models _ _ _ Hm) in Hin.
           destruct Hin as (? & ? & ? & _ & _ & _ & _ & [=]).
      * intros (report' & change & [= <-] & Hpos & _). fold prev in Hpos. lia.
    + split.
      * intros [[Hin | [Hin | Hin]] (d & sev & c & p & ->)].
        -- destruct (gt_int (fabs change) 50) eqn:Hg; [|destruct Hin].
           destruct Hin as [<- | []]. exists report, change.
           fold prev. auto.
        -- destruct (Hfl' _ Hin) as (? & ? & ? & [=]).
        -- apply (collect_models _ _ _ Hm) in Hin.
           destruct Hin as (? & ? & ? & _ & _ & _ & _ & [=]).
      * intros (report' & change' & [= <-] & _ & Hc' & Hg & ->). fold prev in Hc' |- *.
        rewrite Hc in Hc'. injection Hc' as <-. rewrite Hg.
        split; [left; left; reflexivity|]. unfold volume_flag. eauto.
  - rewrite Efc. cbn [collect]. rewrite app_nil_r. split.
    + intros [Hin (d & sev & c & p & ->)].
      destruct (Hfl' _ Hin) as (? & ? & ? & [=]).
    + intros (? & ? & [=] & _).
Qed.

Lemma X21_witness :
  exists found s',
    _detect_anomalies LedgerSpec.quiet 20 0 [("Model A", 17); ("Model B", 3)]
      week (boot with_report) = (Ok found, s') /\
    In (request_volume_spike "Request volume changed by 566.7%" "high" 20 3) found.
Proof.
  destruct (X21_volume_spike LedgerSpec.quiet 20 0 [("Model A", 17); ("Model B", 3)]
              week (boot with_report) eq_refl
              (bounded_small 20 ltac:(cbn; lia)) (bounded_small 0 ltac:(cbn; lia)))
    as (found & s' & Hrun & Hspike).
  { repeat constructor; apply bounded_small; cbn; lia. }
  exists found, s'. split; [exact Hrun|].
  apply Hspike.
  eexists last_week, _. split; [reflexivity|]. split; [reflexivity|].
  split; [vm_compute; reflexivity|]. split; vm_compute; reflexivity.
Defined.

End ReportMore.
